(** * NDVI-Viewer: the request pipeline of [app.py]

    [app.py] is a Streamlit page that resolves an area of interest from
    uploaded GeoJSON files, formats a date window, builds an Earth Engine
    image-collection query and derives three rasters from it (true colour,
    NDVI, classified NDVI).

    The development below follows the script top to bottom:
    - [Py]: the Python values the script handles (parsed JSON, subscripting,
      exceptions, dates and [strftime]);
    - [EE]: the Earth Engine objects it builds (geometries, collection
      queries, per-pixel image operators);
    - [upload_files_proc] and the body of [main];
    - reference definitions that the properties are stated with, and a
      reader and a service to run the script on;
    - the properties of the script.

    Rational numbers stand for the floating-point pixel values and literals:
    every comparison in the script is against a decimal literal, and the
    properties below are statements about those comparisons. *)

From Stdlib Require Import ZArith QArith Lqa Lia List String Ascii Bool.
From ExtLib Require Import Structures.Monad Structures.MonadExc.
From ExtLib Require Import Data.Monads.EitherMonad.
Import ListNotations.
Import MonadNotation.

Set Warnings "-register-all".

Local Open Scope string_scope.
Local Open Scope monad_scope.

(* ===================================================================== *)
(** * Python values                                                       *)
(* ===================================================================== *)

Module Py.

(** The exceptions that the statements of [upload_files_proc] can raise. *)
Inductive exn : Type :=
| JSONDecodeError
| UnicodeDecodeError
| KeyError
| IndexError
| TypeError
| EEException.

(** A computation that returns ([inr]) or raises ([inl]). *)
Definition raises : Type -> Type := sum exn.

(** What [json.loads] can return: [dict], [list], [str], [int], [float],
    [True]/[False] and [None].  A [dict] keeps its insertion order. *)
Inductive value : Type :=
| VNone
| VBool (b : bool)
| VInt (z : Z)
| VFloat (q : Q)
| VStr (s : string)
| VList (l : list value)
| VDict (d : list (string * value)).

(** A subscript is a string ([obj['features']]) or an integer ([obj[0]]). *)
Inductive key : Type :=
| KStr (s : string)
| KInt (i : Z).

Fixpoint dict_get (d : list (string * value)) (k : string) : option value :=
  match d with
  | [] => None
  | (k', v) :: d' => if String.eqb k' k then Some v else dict_get d' k
  end.

(** Sequence indexing with Python's negative indices. *)
Definition seq_get {A : Type} (l : list A) (i : Z) : option A :=
  let n := Z.of_nat (List.length l) in
  if (0 <=? i)%Z then nth_error l (Z.to_nat i)
  else if (0 <=? n + i)%Z then nth_error l (Z.to_nat (n + i))
  else None.

(** [obj[k]].  A dict raises [KeyError] on an absent key (an integer is
    never a key of a parsed JSON object); a list or a string raises
    [IndexError] out of range and [TypeError] on a string subscript;
    numbers, booleans and [None] are not subscriptable. *)
Definition getitem (obj : value) (k : key) : raises value :=
  match obj, k with
  | VDict d, KStr s =>
      match dict_get d s with
      | Some v => ret v
      | None => raise KeyError
      end
  | VDict _, KInt _ => raise KeyError
  | VList l, KInt i =>
      match seq_get l i with
      | Some v => ret v
      | None => raise IndexError
      end
  | VList _, KStr _ => raise TypeError
  | VStr s, KInt i =>
      match seq_get (list_ascii_of_string s) i with
      | Some c => ret (VStr (String c EmptyString))
      | None => raise IndexError
      end
  | VStr _, KStr _ => raise TypeError
  | _, _ => raise TypeError
  end.

(** Truth value of a list: [if geometry_aoi_list:]. *)
Definition truthy {A : Type} (l : list A) : bool :=
  match l with
  | [] => false
  | _ :: _ => true
  end.

(** ** Dates *)

Record date : Type := mkdate { year : Z; month : Z; day : Z }.

(** [datetime(y, m, d)], as far as the date pickers use it. *)
Definition datetime (y m d : Z) : date := mkdate y m d.

Definition digit (n : Z) : ascii := ascii_of_nat (48 + Z.to_nat (n mod 10)).

(** The [width] low decimal digits of [n], zero padded. *)
Fixpoint zfill (width : nat) (n : Z) : string :=
  match width with
  | O => EmptyString
  | S w => zfill w (n / 10) ++ String (digit n) EmptyString
  end.

(** [d.strftime(fmt)] for the directives [%Y], [%m], [%d] and [%%]; any
    other character is copied.  [%Y] is the year in four digits, [%m] and
    [%d] are the month and the day in two. *)
Fixpoint strftime (d : date) (fmt : string) : string :=
  match fmt with
  | EmptyString => EmptyString
  | String "%" (String "Y" rest) => zfill 4 (year d) ++ strftime d rest
  | String "%" (String "m" rest) => zfill 2 (month d) ++ strftime d rest
  | String "%" (String "d" rest) => zfill 2 (day d) ++ strftime d rest
  | String "%" (String "%" rest) => String "%" (strftime d rest)
  | String c rest => String c (strftime d rest)
  end.

End Py.

(* ===================================================================== *)
(** * Earth Engine objects                                                *)
(* ===================================================================== *)

Module EE.

(** ** Geometries

    A geometry object records the coordinates it was built from. *)
Inductive Geometry : Type :=
| Point (coords : list Q)
| Polygon (coords : Py.value)
| MultiPolygon (coords : list Geometry).

(** ** The polygon constructor of the client library

    What [ee.Geometry.Polygon] does with coordinates that come out of a
    JSON document, for the shapes that a polygon has there: positions of
    two or three numbers, in a list (one ring) or in a list of lists
    (rings).  The constructor brings the coordinates to three levels of
    nesting, wrapping a single ring in a list, and accepts positions of two
    numbers only (its [_fixDepth] and [_isValidCoordinates] steps); it
    looks up its first argument and finds none when it is [None].  What it
    does with any other value is [elsewhere]. *)
Definition is_number (v : Py.value) : bool :=
  match v with
  | Py.VInt _ | Py.VFloat _ => true
  | _ => false
  end.

(** A position of two numbers, and one of two or three. *)
Definition is_pair (v : Py.value) : bool :=
  match v with
  | Py.VList [x; y] => is_number x && is_number y
  | _ => false
  end.

Definition is_position (v : Py.value) : bool :=
  match v with
  | Py.VList [x; y] => is_number x && is_number y
  | Py.VList [x; y; z] => is_number x && is_number y && is_number z
  | _ => false
  end.

(** A non-empty list whose elements all pass [test]. *)
Definition list_of (test : Py.value -> bool) (v : Py.value) : bool :=
  match v with
  | Py.VList (x :: l) => forallb test (x :: l)
  | _ => false
  end.

Definition client_Polygon (elsewhere : Py.value -> Py.raises Geometry)
    (coords : Py.value) : Py.raises Geometry :=
  match coords with
  | Py.VNone => raise Py.KeyError
  | _ =>
      if list_of (list_of is_position) coords then
        if list_of (list_of is_pair) coords then ret (Polygon coords)
        else raise Py.EEException
      else if list_of is_position coords then
        if list_of is_pair coords then ret (Polygon (Py.VList [coords]))
        else raise Py.EEException
      else elsewhere coords
  end.

(** ** Images

    A band is a value per pixel, [None] where the pixel is masked; an
    image is a family of bands indexed by band name. *)
Definition Pixel : Type := (Z * Z)%type.
Definition Band : Type := Pixel -> option Q.
Definition Image : Type := string -> Band.

Definition Qlt_bool (x y : Q) : bool := negb (Qle_bool y x).
Definition nonzero (x : Q) : bool := negb (Qeq_bool x 0).
Definition of_bool (b : bool) : Q := if b then 1 else 0.

(** A number used where an image is expected: [ee.Image.constant]. *)
Definition constant (c : Q) : Band := fun _ => Some c.

(** Binary operators work pixel by pixel; the result is masked where
    either operand is. *)
Definition binop (f : Q -> Q -> Q) (a b : Band) : Band :=
  fun p =>
    match a p, b p with
    | Some x, Some y => Some (f x y)
    | _, _ => None
    end.

(** [a.gte(b)], [a.lt(b)]: 1 where the comparison holds, 0 elsewhere. *)
Definition gte : Band -> Band -> Band :=
  binop (fun x y => of_bool (Qle_bool y x)).
Definition lt : Band -> Band -> Band :=
  binop (fun x y => of_bool (Qlt_bool x y)).

(** [a.And(b)]: 1 where both values are non-zero. *)
Definition And : Band -> Band -> Band :=
  binop (fun x y => of_bool (nonzero x && nonzero y)).

(** [a.divide(b)]; Earth Engine returns 0 for a division by 0, as [Qdiv]
    does. *)
Definition divide : Band -> Band -> Band := binop Qdiv.

(** An operator on a multi-band image works band by band. *)
Definition each_band (f : Band -> Band) (img : Image) : Image :=
  fun b => f (img b).

(** [image.updateMask(mask)]: a pixel stays valid where it was valid and
    the mask is valid and non-zero. *)
Definition updateMask (image mask : Band) : Band :=
  fun p =>
    match image p, mask p with
    | Some x, Some m => if nonzero m then Some x else None
    | _, _ => None
    end.

(** [input.where(test, value)]: where [test] is non-zero the pixel of
    [value], elsewhere the pixel of [input]; where [test] or [value] is
    masked the pixel of [input]; a masked pixel of [input] stays masked. *)
Definition where_ (input test value : Band) : Band :=
  fun p =>
    match input p with
    | None => None
    | Some x =>
        match test p, value p with
        | Some t, Some v => if nonzero t then Some v else Some x
        | _, _ => Some x
        end
    end.

(** [image.normalizedDifference([first, second])]:
    [(first - second) / (first + second)], masked where a band is masked
    or negative; where the sum is 0 the quotient is the 0 of [divide]. *)
Definition normalizedDifference (image : Image) (first second : string)
    : Band :=
  fun p =>
    match image first p, image second p with
    | Some a, Some b =>
        if Qlt_bool a 0 || Qlt_bool b 0 then None
        else Some ((a - b) / (a + b))
    | _, _ => None
    end.

(** ** Collection queries

    The client builds a query: the archive's identifier and the filters
    added to it, in the order they were added. *)
Inductive Filter : Type :=
| Filter_lt (name : string) (value : Q)
| Filter_date (start end_ : string)
| Filter_bounds (geometry : Geometry).

Record ImageCollection : Type :=
  mkcollection { id : string; filters : list Filter }.

Definition ImageCollection_ (id : string) : ImageCollection :=
  mkcollection id [].

Definition filter (c : ImageCollection) (f : Filter) : ImageCollection :=
  mkcollection (id c) (filters c ++ [f]).

Definition filterDate (c : ImageCollection) (start end_ : string)
    : ImageCollection :=
  filter c (Filter_date start end_).

Definition filterBounds (c : ImageCollection) (geometry : Geometry)
    : ImageCollection :=
  filter c (Filter_bounds geometry).

(** A scene of an archive: its metadata properties and its bands. *)
Record Scene : Type :=
  mkscene { property : string -> option Q; image : Image }.

(** What the service does with a query.  The archive's content, the
    date test and the two geometric tests belong to the service. *)
Section Service.

Variable archive : string -> list Scene.
Variable in_date_range : string -> string -> Scene -> bool.
Variable intersects : Geometry -> Scene -> bool.
Variable inside : Geometry -> Pixel -> bool.

Definition passes (f : Filter) (s : Scene) : bool :=
  match f with
  | Filter_lt name value =>
      match property s name with
      | Some x => Qlt_bool x value
      | None => false
      end
  | Filter_date start end_ => in_date_range start end_ s
  | Filter_bounds geometry => intersects geometry s
  end.

(** The scenes that a query selects: each filter, in order, keeps the
    scenes that pass it. *)
Definition fetch (c : ImageCollection) : list Scene :=
  fold_left (fun scenes f => List.filter (passes f) scenes)
            (filters c) (archive (id c)).

(** [image.clip(geometry)]: pixels outside the geometry are masked. *)
Definition clip (img : Image) (geometry : Geometry) : Image :=
  fun b p => if inside geometry p then img b p else None.

End Service.

End EE.

(* ===================================================================== *)
(** * The area-of-interest resolver                                       *)
(* ===================================================================== *)

(** An uploaded file, as far as the script uses it: [read()] gives its
    bytes. *)
Record UploadedFile : Type := mkfile { read : string }.

Section Resolver.

(** [json.loads]: the parsed document, or [JSONDecodeError] (on bytes that
    are no text at all, [UnicodeDecodeError]). *)
Variable json_loads : string -> Py.raises Py.value.

(** [ee.Geometry.Polygon(coordinates)]: the geometry that the constructor
    of the client library builds, or the exception that it raises. *)
Variable Geometry_Polygon : Py.value -> Py.raises EE.Geometry.

(** [geojson_data['features'][0]['geometry']['coordinates']] *)
Definition coordinates_of (geojson_data : Py.value) : Py.raises Py.value :=
  features <- Py.getitem geojson_data (Py.KStr "features") ;;
  feature <- Py.getitem features (Py.KInt 0) ;;
  geometry <- Py.getitem feature (Py.KStr "geometry") ;;
  Py.getitem geometry (Py.KStr "coordinates").

(** One pass of the loop body of [upload_files_proc]: the geometry of one
    file. *)
Definition file_geometry (upload_file : UploadedFile) : Py.raises EE.Geometry :=
  let bytes_data := read upload_file in
  geojson_data <- json_loads bytes_data ;;
  coordinates <- coordinates_of geojson_data ;;
  Geometry_Polygon coordinates.

(** The [for] loop of [upload_files_proc], threading [geometry_aoi_list];
    an exception in the body leaves the loop and the function. *)
Fixpoint for_upload_file (upload_files : list UploadedFile)
    (geometry_aoi_list : list EE.Geometry) : Py.raises (list EE.Geometry) :=
  match upload_files with
  | [] => ret geometry_aoi_list
  | upload_file :: rest =>
      geometry <- file_geometry upload_file ;;
      for_upload_file rest (geometry_aoi_list ++ [geometry])
  end.

Definition default_point : EE.Geometry := EE.Point [27.98%Q; 36.13%Q].

Definition upload_files_proc (upload_files : list UploadedFile)
    : Py.raises EE.Geometry :=
  geometry_aoi_list <- for_upload_file upload_files [] ;;
  if Py.truthy geometry_aoi_list
  then ret (EE.MultiPolygon geometry_aoi_list)
  else ret default_point.

End Resolver.

(* ===================================================================== *)
(** * The body of [main]                                                  *)
(* ===================================================================== *)

(** [st.date_input(label, value)]: the date picked, [value] while the
    picker is unset. *)
Definition date_input (label : string) (value : Py.date)
    (picked : option Py.date) : Py.date :=
  match picked with
  | Some d => d
  | None => value
  end.

(** Lines 70 and 74, 71 and 75: the two ends of the date window. *)
Definition start_date (picked : option Py.date) : string :=
  let start_date := date_input "Start Date" (Py.datetime 2023 2 10) picked in
  Py.strftime start_date "%Y-%m-%d".

Definition end_date (picked : option Py.date) : string :=
  let end_date := date_input "End Date" (Py.datetime 2023 2 20) picked in
  Py.strftime end_date "%Y-%m-%d".

(** Lines 105-108: the collection query. *)
Definition collection (start_date end_date : string)
    (geometry_aoi : EE.Geometry) : EE.ImageCollection :=
  EE.filterBounds
    (EE.filterDate
       (EE.filter (EE.ImageCollection_ "COPERNICUS/S2_SR")
                  (EE.Filter_lt "CLOUDY_PIXEL_PERCENTAGE" 100))
       start_date end_date)
    geometry_aoi.

(** Lines 130-131. *)
Definition getNDVI (collection : EE.Image) : EE.Band :=
  EE.normalizedDifference collection "B8" "B4".

(** Line 144, [ndvi = ndvi.updateMask(ndvi.gte(0))], on the value that
    line 134 gave to [ndvi]: the water, where NDVI is negative, is masked. *)
Definition mask_water (ndvi : EE.Band) : EE.Band :=
  EE.updateMask ndvi (EE.gte ndvi (EE.constant 0)).

(** Lines 147-154, on the value that line 144 gave to [ndvi]. *)
Definition ndvi_classified (ndvi : EE.Band) : EE.Band :=
  EE.where_ (
  EE.where_ (
  EE.where_ (
  EE.where_ (
  EE.where_ (
  EE.where_ (
  EE.where_ ndvi
    (EE.And (EE.gte ndvi (EE.constant 0)) (EE.lt ndvi (EE.constant 0.15)))
    (EE.constant 1))
    (EE.And (EE.gte ndvi (EE.constant 0.15)) (EE.lt ndvi (EE.constant 0.25)))
    (EE.constant 2))
    (EE.And (EE.gte ndvi (EE.constant 0.25)) (EE.lt ndvi (EE.constant 0.35)))
    (EE.constant 3))
    (EE.And (EE.gte ndvi (EE.constant 0.35)) (EE.lt ndvi (EE.constant 0.45)))
    (EE.constant 4))
    (EE.And (EE.gte ndvi (EE.constant 0.45)) (EE.lt ndvi (EE.constant 0.65)))
    (EE.constant 5))
    (EE.And (EE.gte ndvi (EE.constant 0.65)) (EE.lt ndvi (EE.constant 0.75)))
    (EE.constant 6))
    (EE.gte ndvi (EE.constant 0.75))
    (EE.constant 7).

(** What one run of the page sends to the service and puts on the map. *)
Record Page : Type := mkpage {
  query : EE.ImageCollection;
  tci_image : EE.Image;
  ndvi_layer : EE.Band;
  ndvi_classified_layer : EE.Band
}.

(** What the widgets hold when the script runs. *)
Record Widgets : Type := mkwidgets {
  upload_files : list UploadedFile;
  start_picked : option Py.date;
  end_picked : option Py.date
}.

Section Main.

Variable json_loads : string -> Py.raises Py.value.
Variable Geometry_Polygon : Py.value -> Py.raises EE.Geometry.
Variable archive : string -> list EE.Scene.
Variable in_date_range : string -> string -> EE.Scene -> bool.
Variable intersects : EE.Geometry -> EE.Scene -> bool.
Variable inside : EE.Geometry -> EE.Pixel -> bool.

(** [collection.median()]: the per-pixel median of the images. *)
Variable median : list EE.Image -> EE.Image.

(** Line 111: every image of the collection, clipped and rescaled. *)
Definition clipped_collection (collection : EE.ImageCollection)
    (geometry_aoi : EE.Geometry) : list EE.Image :=
  List.map
    (fun image =>
       EE.each_band (fun b => EE.divide b (EE.constant 10000))
                    (EE.clip inside image geometry_aoi))
    (List.map EE.image
              (EE.fetch archive in_date_range intersects collection)).

Definition main (w : Widgets) : Py.raises Page :=
  geometry_aoi <-
    upload_files_proc json_loads Geometry_Polygon (upload_files w) ;;
  let start_date := start_date (start_picked w) in
  let end_date := end_date (end_picked w) in
  let collection := collection start_date end_date geometry_aoi in
  let clipped_collection := clipped_collection collection geometry_aoi in
  let sat_imagery := median clipped_collection in
  let tci_image := sat_imagery in
  let ndvi := getNDVI sat_imagery in
  let ndvi := mask_water ndvi in
  let ndvi_classified := ndvi_classified ndvi in
  ret (mkpage collection tci_image ndvi ndvi_classified).

End Main.

(* ===================================================================== *)
(** * Visualization parameters                                            *)
(* ===================================================================== *)

(** The visualization parameters of a layer: the keys that the script
    uses; a dictionary without ['gamma'] has [None] there, one without
    ['bands'] or ['palette'] the empty list. *)
Module Vis.

Record Params : Type := mkparams {
  bands : list string;
  min : Q;
  max : Q;
  gamma : option Q;
  palette : list string
}.

(** Values outside the range [min .. max], scaled to [0 .. 1], are drawn
    as the ends of the range. *)
Definition clamp (t : Q) : Q :=
  if Qle_bool t 0 then 0 else if Qle_bool 1 t then 1 else t.

End Vis.

(** Lines 121-126. *)
Definition tci_params : Vis.Params :=
  Vis.mkparams ["B4"; "B3"; "B2"] 0 1 (Some 1%Q) [].

(** Lines 137-141. *)
Definition ndvi_params : Vis.Params :=
  Vis.mkparams [] 0 1 None
    ["#ffffe5"; "#f7fcb9"; "#78c679"; "#41ab5d"; "#238443"; "#005a32"].

(** Lines 157-162. *)
Definition ndvi_classified_params : Vis.Params :=
  Vis.mkparams [] 1 7 None
    ["#a50026"; "#ed5e3d"; "#f9f7ae"; "#fec978"; "#9ed569"; "#229b51";
     "#006837"].

(* ===================================================================== *)
(** * Reference definitions                                               *)
(* ===================================================================== *)

(** ** The classification as a rule table

    A rule is [(lowerBound, upperBound, classId)]; [None] as upper bound
    means unbounded.  The table is evaluated on the NDVI value of the
    pixel: the first rule whose interval holds the value gives the class, a
    value that no rule matches is left as it is, and a masked pixel stays
    masked. *)
Definition rule : Type := (Q * option Q * Q)%type.

Definition rule_table : list rule :=
  [ (0,    Some 0.15, 1);
    (0.15, Some 0.25, 2);
    (0.25, Some 0.35, 3);
    (0.35, Some 0.45, 4);
    (0.45, Some 0.65, 5);
    (0.65, Some 0.75, 6);
    (0.75, None,      7) ]%Q.

Definition rule_matches (v : Q) (r : rule) : bool :=
  let '(lowerBound, upperBound, _) := r in
  Qle_bool lowerBound v &&
  match upperBound with
  | Some u => EE.Qlt_bool v u
  | None => true
  end.

Definition classId (r : rule) : Q := snd r.

Definition classify_by_rules (pixel : option Q) : option Q :=
  match pixel with
  | None => None
  | Some v =>
      match List.find (rule_matches v) rule_table with
      | Some r => Some (classId r)
      | None => Some v
      end
  end.

(** ** The chain of [where] calls as a list

    The test image and the value of each [where] of lines 148-154, in the
    order of the calls. *)
Definition conditions (ndvi : EE.Band) : list (EE.Band * Q) :=
  [ (EE.And (EE.gte ndvi (EE.constant 0)) (EE.lt ndvi (EE.constant 0.15)), 1);
    (EE.And (EE.gte ndvi (EE.constant 0.15)) (EE.lt ndvi (EE.constant 0.25)), 2);
    (EE.And (EE.gte ndvi (EE.constant 0.25)) (EE.lt ndvi (EE.constant 0.35)), 3);
    (EE.And (EE.gte ndvi (EE.constant 0.35)) (EE.lt ndvi (EE.constant 0.45)), 4);
    (EE.And (EE.gte ndvi (EE.constant 0.45)) (EE.lt ndvi (EE.constant 0.65)), 5);
    (EE.And (EE.gte ndvi (EE.constant 0.65)) (EE.lt ndvi (EE.constant 0.75)), 6);
    (EE.gte ndvi (EE.constant 0.75), 7) ]%Q.

(** A test image holds at a pixel where it is valid and non-zero. *)
Definition holds_at (p : EE.Pixel) (test : EE.Band) : bool :=
  match test p with
  | Some t => EE.nonzero t
  | None => false
  end.

(** The same chain with every test reading the image classified so far,
    not [ndvi]: what the script does not do. *)
Definition classified_feeding_back (ndvi : EE.Band) : EE.Band :=
  List.fold_left
    (fun acc (r : rule) =>
       let '(lowerBound, upperBound, c) := r in
       let test :=
         match upperBound with
         | Some u => EE.And (EE.gte acc (EE.constant lowerBound))
                            (EE.lt acc (EE.constant u))
         | None => EE.gte acc (EE.constant lowerBound)
         end in
       EE.where_ acc test (EE.constant c))
    rule_table ndvi.

(** ** Well-formed uploads

    A parsed document has coordinates when it is an object whose
    ['features'] is a list, the first element of which is an object whose
    ['geometry'] is an object with a ['coordinates'] entry. *)
Definition has_coordinates (geojson_data coordinates : Py.value) : Prop :=
  exists d features fd gd,
    geojson_data = Py.VDict d /\
    Py.dict_get d "features" = Some (Py.VList (Py.VDict fd :: features)) /\
    Py.dict_get fd "geometry" = Some (Py.VDict gd) /\
    Py.dict_get gd "coordinates" = Some coordinates.

(** A file is a valid upload with geometry [g] when it parses, the
    document has coordinates, and the polygon constructor builds [g] from
    them. *)
Definition valid_upload (json_loads : string -> Py.raises Py.value)
    (Geometry_Polygon : Py.value -> Py.raises EE.Geometry)
    (upload_file : UploadedFile) (g : EE.Geometry) : Prop :=
  exists geojson_data c,
    json_loads (read upload_file) = inr geojson_data /\
    has_coordinates geojson_data c /\
    Geometry_Polygon c = inr g.

(** ** Polygons of GeoJSON

    The coordinates of a GeoJSON polygon are a list of linear rings; a
    linear ring is a list of four or more positions of which the first and
    the last are the same; a position is a list of two or three numbers
    (longitude, latitude and, if there is one, altitude). *)
Definition number_value (v : Py.value) : Q :=
  match v with
  | Py.VInt z => inject_Z z
  | Py.VFloat q => q
  | _ => 0
  end.

Fixpoint same_numbers (a b : list Py.value) : bool :=
  match a, b with
  | [], [] => true
  | x :: a', y :: b' =>
      Qeq_bool (number_value x) (number_value y) && same_numbers a' b'
  | _, _ => false
  end.

Definition same_position (a b : Py.value) : bool :=
  match a, b with
  | Py.VList x, Py.VList y => same_numbers x y
  | _, _ => false
  end.

Definition linear_ring (v : Py.value) : bool :=
  match v with
  | Py.VList (first :: rest) =>
      forallb EE.is_position (first :: rest) &&
      (4 <=? List.length (first :: rest))%nat &&
      same_position first (List.last rest first)
  | _ => false
  end.

Definition geojson_polygon (v : Py.value) : bool := EE.list_of linear_ring v.

(** A polygon without altitudes: every position is a pair. *)
Definition planar (v : Py.value) : bool :=
  EE.list_of (EE.list_of EE.is_pair) v.

(** A file holds the GeoJSON polygon [c] when it parses and the document
    has the coordinates [c], those of a GeoJSON polygon. *)
Definition geojson_upload (json_loads : string -> Py.raises Py.value)
    (upload_file : UploadedFile) (c : Py.value) : Prop :=
  exists geojson_data,
    json_loads (read upload_file) = inr geojson_data /\
    has_coordinates geojson_data c /\
    geojson_polygon c = true.

(** The decimal value of a string of digits. *)
Definition decimal_value (s : string) : Z :=
  List.fold_left
    (fun acc c => (acc * 10 + (Z.of_nat (nat_of_ascii c) - 48))%Z)
    (list_ascii_of_string s) 0%Z.

(** The class numbers as integers. *)
Definition class_number (k : nat) : Q := inject_Z (Z.of_nat k).

(** ** A reader and a service to run the script on

    [Example.loads] reads JSON text without escapes and exponents;
    [Example.Polygon] is the polygon constructor of the client library;
    [Example.archive] holds two scenes of constant bands. *)
Module Example.

Import Py.

Definition is_space (c : ascii) : bool :=
  match nat_of_ascii c with
  | 32%nat | 9%nat | 10%nat | 13%nat => true
  | _ => false
  end.

Definition is_digit (c : ascii) : bool :=
  let n := nat_of_ascii c in (48 <=? n)%nat && (n <=? 57)%nat.

Fixpoint skip_space (s : list ascii) : list ascii :=
  match s with
  | c :: r => if is_space c then skip_space r else s
  | [] => []
  end.

Fixpoint read_digits (s : list ascii) : list ascii * list ascii :=
  match s with
  | c :: r =>
      if is_digit c
      then let '(ds, r') := read_digits r in (c :: ds, r')
      else ([], s)
  | [] => ([], [])
  end.

Definition digits_value (ds : list ascii) : Z :=
  decimal_value (string_of_list_ascii ds).

(** The characters up to the closing quote. *)
Fixpoint read_string (s : list ascii) : option (string * list ascii) :=
  match s with
  | [] => None
  | c :: r =>
      if Ascii.eqb c "034" then Some (EmptyString, r)
      else if Ascii.eqb c "\" then None
      else match read_string r with
           | Some (t, r') => Some (String c t, r')
           | None => None
           end
  end.

Definition read_unsigned (s : list ascii) : option (value * list ascii) :=
  match read_digits s with
  | ([], _) => None
  | (ds, "."%char :: r) =>
      match read_digits r with
      | ([], _) => None
      | (fs, r') =>
          let scale := Pos.pow 10 (Pos.of_nat (List.length fs)) in
          Some (VFloat (Qmake (digits_value (ds ++ fs)) scale), r')
      end
  | (ds, r) => Some (VInt (digits_value ds), r)
  end.

Definition negate (v : value) : value :=
  match v with
  | VInt z => VInt (- z)
  | VFloat q => VFloat (- q)
  | _ => v
  end.

Definition read_number (s : list ascii) : option (value * list ascii) :=
  match s with
  | "-"%char :: r =>
      match read_unsigned r with
      | Some (v, r') => Some (negate v, r')
      | None => None
      end
  | _ => read_unsigned s
  end.

(** A repeated key keeps its place and takes the last value. *)
Fixpoint dict_set (d : list (string * value)) (k : string) (v : value)
    : list (string * value) :=
  match d with
  | [] => [(k, v)]
  | (k', v') :: d' =>
      if String.eqb k' k then (k', v) :: d'
      else (k', v') :: dict_set d' k v
  end.

Fixpoint read_value (fuel : nat) (s : list ascii) {struct fuel}
    : option (value * list ascii) :=
  match fuel with
  | O => None
  | S n =>
      match skip_space s with
      | "{"%char :: r =>
          match skip_space r with
          | "}"%char :: r' => Some (VDict [], r')
          | _ =>
              match read_members n r [] with
              | Some (d, r') => Some (VDict d, r')
              | None => None
              end
          end
      | "["%char :: r =>
          match skip_space r with
          | "]"%char :: r' => Some (VList [], r')
          | _ =>
              match read_items n r with
              | Some (l, r') => Some (VList l, r')
              | None => None
              end
          end
      | "034"%char :: r =>
          match read_string r with
          | Some (t, r') => Some (VStr t, r')
          | None => None
          end
      | "t"%char :: "r"%char :: "u"%char :: "e"%char :: r =>
          Some (VBool true, r)
      | "f"%char :: "a"%char :: "l"%char :: "s"%char :: "e"%char :: r =>
          Some (VBool false, r)
      | "n"%char :: "u"%char :: "l"%char :: "l"%char :: r =>
          Some (VNone, r)
      | s' => read_number s'
      end
  end
with read_items (fuel : nat) (s : list ascii) {struct fuel}
    : option (list value * list ascii) :=
  match fuel with
  | O => None
  | S n =>
      match read_value n s with
      | Some (v, r) =>
          match skip_space r with
          | ","%char :: r' =>
              match read_items n r' with
              | Some (l, r'') => Some (v :: l, r'')
              | None => None
              end
          | "]"%char :: r' => Some ([v], r')
          | _ => None
          end
      | None => None
      end
  end
with read_members (fuel : nat) (s : list ascii)
    (d : list (string * value)) {struct fuel}
    : option (list (string * value) * list ascii) :=
  match fuel with
  | O => None
  | S n =>
      match skip_space s with
      | "034"%char :: r =>
          match read_string r with
          | Some (k, r1) =>
              match skip_space r1 with
              | ":"%char :: r2 =>
                  match read_value n r2 with
                  | Some (v, r3) =>
                      match skip_space r3 with
                      | ","%char :: r4 => read_members n r4 (dict_set d k v)
                      | "}"%char :: r4 => Some (dict_set d k v, r4)
                      | _ => None
                      end
                  | None => None
                  end
              | _ => None
              end
          | None => None
          end
      | _ => None
      end
  end.

Definition loads (s : string) : raises value :=
  let cs := list_ascii_of_string s in
  match read_value (S (List.length cs)) cs with
  | Some (v, r) =>
      match skip_space r with
      | [] => ret v
      | _ :: _ => raise JSONDecodeError
      end
  | None => raise JSONDecodeError
  end.

(** JSON text written with single quotes in place of double quotes. *)
Definition text (s : string) : string :=
  string_of_list_ascii
    (List.map (fun c => if Ascii.eqb c "'" then "034"%char else c)
              (list_ascii_of_string s)).

(** The polygon constructor, raising on the values that the model of
    the client library leaves open. *)
Definition Polygon : value -> raises EE.Geometry :=
  EE.client_Polygon (fun _ => raise EEException).

(** Two uploads: a triangle and a square. *)
Definition triangle : UploadedFile :=
  mkfile (text
    "{'type': 'FeatureCollection', 'features': [{'type': 'Feature', 'geometry': {'type': 'Polygon', 'coordinates': [[[2.5, 36.0], [3.0, 36.0], [3.0, 36.5], [2.5, 36.0]]]}}]}").

Definition square : UploadedFile :=
  mkfile (text
    "{'features': [{'geometry': {'coordinates': [[[0, 0], [1, 0], [1, 1], [0, 1], [0, 0]]]}}]}").

Definition triangle_coordinates : value :=
  VList [VList [VList [VFloat 2.5; VFloat 36.0];
                VList [VFloat 3.0; VFloat 36.0];
                VList [VFloat 3.0; VFloat 36.5];
                VList [VFloat 2.5; VFloat 36.0]]].

Definition square_coordinates : value :=
  VList [VList [VList [VInt 0; VInt 0]; VList [VInt 1; VInt 0];
                VList [VInt 1; VInt 1]; VList [VInt 0; VInt 1];
                VList [VInt 0; VInt 0]]].

(** Two polygons of GeoJSON with altitudes: a roof and a tower. *)
Definition roof : UploadedFile :=
  mkfile (text
    "{'type': 'FeatureCollection', 'features': [{'type': 'Feature', 'properties': {}, 'geometry': {'type': 'Polygon', 'coordinates': [[[2.5, 36.0, 12.0], [3.0, 36.0, 12.0], [3.0, 36.5, 15.5], [2.5, 36.0, 12.0]]]}}]}").

Definition roof_coordinates : value :=
  VList [VList [VList [VFloat 2.5; VFloat 36.0; VFloat 12.0];
                VList [VFloat 3.0; VFloat 36.0; VFloat 12.0];
                VList [VFloat 3.0; VFloat 36.5; VFloat 15.5];
                VList [VFloat 2.5; VFloat 36.0; VFloat 12.0]]].

Definition tower : UploadedFile :=
  mkfile (text
    "{'features': [{'geometry': {'type': 'Polygon', 'coordinates': [[[0, 0, 30], [1, 0, 30], [1, 1, 30], [0, 1, 30], [0, 0, 30]]]}}]}").

Definition tower_coordinates : value :=
  VList [VList [VList [VInt 0; VInt 0; VInt 30];
                VList [VInt 1; VInt 0; VInt 30];
                VList [VInt 1; VInt 1; VInt 30];
                VList [VInt 0; VInt 1; VInt 30];
                VList [VInt 0; VInt 0; VInt 30]]].

(** A single ring where a list of rings is expected. *)
Definition bare_ring : UploadedFile :=
  mkfile (text
    "{'features': [{'geometry': {'coordinates': [[0, 0], [1, 0], [1, 1], [0, 0]]}}]}").

(** Uploads that are not GeoJSON: cut short, and without features. *)
Definition truncated : UploadedFile :=
  mkfile (text "{'features': [{'geometry': ").

Definition no_features : UploadedFile :=
  mkfile (text "{'type': 'FeatureCollection', 'features': []}").

(** A scene whose bands are constant over the plane. *)
Definition flat_scene (cloud b4 b8 : Q) : EE.Scene :=
  EE.mkscene
    (fun name =>
       if String.eqb name "CLOUDY_PIXEL_PERCENTAGE" then Some cloud
       else None)
    (fun band =>
       if String.eqb band "B4" then EE.constant b4
       else if String.eqb band "B8" then EE.constant b8
       else fun _ => None).

Definition flat_image : EE.Image := EE.image (flat_scene 12 0.1 0.3).

Definition archive (id : string) : list EE.Scene :=
  if String.eqb id "COPERNICUS/S2_SR"
  then [flat_scene 12 1000 3000; flat_scene 100 3000 1000]
  else [].

Definition in_date_range (start end_ : string) (s : EE.Scene) : bool := true.
Definition intersects (g : EE.Geometry) (s : EE.Scene) : bool := true.
Definition inside (g : EE.Geometry) (p : EE.Pixel) : bool := true.

(** The median of one image is that image. *)
Definition median (images : list EE.Image) : EE.Image :=
  match images with
  | [i] => i
  | _ => fun _ _ => None
  end.

(** An upload with two features, a triangle and then a square, and a
    line string where a polygon is expected. *)
Definition two_features : UploadedFile :=
  mkfile (text
    "{'name': 'two', 'features': [{'type': 'Feature', 'geometry': {'type': 'Polygon', 'coordinates': [[[2.5, 36.0], [3.0, 36.0], [3.0, 36.5], [2.5, 36.0]]]}}, {'type': 'Feature', 'geometry': {'type': 'Polygon', 'coordinates': [[[0, 0], [1, 0], [1, 1], [0, 1], [0, 0]]]}}]}").

Definition not_a_dict : UploadedFile := mkfile (text "[1, 2, 3]").

(** A band that rises from west to east: a tenth of the column. *)
Definition ramp : EE.Band := fun p => Some (Qmake (fst p) 10).

(** The page for given widget values, on this reader and service. *)
Definition run : Widgets -> raises Page :=
  main loads Polygon archive in_date_range intersects inside median.

End Example.

(* ===================================================================== *)
(** * Properties of the band-math pipeline                                *)
(* ===================================================================== *)

Local Open Scope Q_scope.

Lemma Qle_bool_true (a b : Q) : a <= b -> Qle_bool a b = true.
Proof. intros H. now apply Qle_bool_iff. Qed.

Lemma Qle_bool_false (a b : Q) : b < a -> Qle_bool a b = false.
Proof.
  intros H. destruct (Qle_bool a b) eqn:E; [| reflexivity].
  apply Qle_bool_iff in E. lra.
Qed.

Lemma Qlt_bool_true (a b : Q) : a < b -> EE.Qlt_bool a b = true.
Proof. intros H. unfold EE.Qlt_bool. now rewrite Qle_bool_false. Qed.

Lemma Qlt_bool_false (a b : Q) : b <= a -> EE.Qlt_bool a b = false.
Proof. intros H. unfold EE.Qlt_bool. now rewrite Qle_bool_true. Qed.

Lemma Qlt_bool_iff (a b : Q) : EE.Qlt_bool a b = true <-> a < b.
Proof.
  split; [| apply Qlt_bool_true].
  intros H. destruct (Qlt_le_dec a b) as [L | L]; [exact L |].
  rewrite Qlt_bool_false in H by exact L. discriminate.
Qed.

Lemma nonzero_of_bool (b : bool) : EE.nonzero (EE.of_bool b) = b.
Proof. destruct b; reflexivity. Qed.

(** Decide every comparison of the goal against the bounds in context. *)
Ltac decide_comparisons :=
  repeat match goal with
    | |- context [Qle_bool ?a ?b] =>
        first [ rewrite (Qle_bool_true a b) by lra
              | rewrite (Qle_bool_false a b) by lra ]
    | |- context [EE.Qlt_bool ?a ?b] =>
        first [ rewrite (Qlt_bool_true a b) by lra
              | rewrite (Qlt_bool_false a b) by lra ]
    end.

(** Cut the line at the breakpoints of the classification. *)
Ltac split_at_breakpoints v :=
  destruct (Qlt_le_dec v 0);
  [| destruct (Qlt_le_dec v 0.15);
     [| destruct (Qlt_le_dec v 0.25);
        [| destruct (Qlt_le_dec v 0.35);
           [| destruct (Qlt_le_dec v 0.45);
              [| destruct (Qlt_le_dec v 0.65);
                 [| destruct (Qlt_le_dec v 0.75) ]]]]]].

(** ** The [where] chain, pixel by pixel *)

Section AtPixel.

Variable ndvi : EE.Band.
Variable p : EE.Pixel.

Lemma where_masked (test value : EE.Band) :
  ndvi p = None -> EE.where_ ndvi test value p = None.
Proof. intros H. unfold EE.where_. now rewrite H. Qed.

Lemma where_valid (input test : EE.Band) (x c : Q) (b : bool) :
  input p = Some x ->
  test p = Some (EE.of_bool b) ->
  EE.where_ input test (EE.constant c) p = Some (if b then c else x).
Proof.
  intros Hi Ht. unfold EE.where_, EE.constant.
  rewrite Hi, Ht, nonzero_of_bool. now destruct b.
Qed.

Lemma gte_valid (v c : Q) :
  ndvi p = Some v ->
  EE.gte ndvi (EE.constant c) p = Some (EE.of_bool (Qle_bool c v)).
Proof. intros H. unfold EE.gte, EE.binop, EE.constant. now rewrite H. Qed.

Lemma between_valid (v lo hi : Q) :
  ndvi p = Some v ->
  EE.And (EE.gte ndvi (EE.constant lo)) (EE.lt ndvi (EE.constant hi)) p
  = Some (EE.of_bool (Qle_bool lo v && EE.Qlt_bool v hi)).
Proof.
  intros H. unfold EE.And, EE.gte, EE.lt, EE.binop, EE.constant.
  now rewrite H, !nonzero_of_bool.
Qed.

(** The value of the classified image at a valid pixel: the seven
    overwrites, the last one outermost. *)
Lemma ndvi_classified_valid (v : Q) :
  ndvi p = Some v ->
  ndvi_classified ndvi p =
  Some (if Qle_bool 0.75 v then 7
        else if Qle_bool 0.65 v && EE.Qlt_bool v 0.75 then 6
        else if Qle_bool 0.45 v && EE.Qlt_bool v 0.65 then 5
        else if Qle_bool 0.35 v && EE.Qlt_bool v 0.45 then 4
        else if Qle_bool 0.25 v && EE.Qlt_bool v 0.35 then 3
        else if Qle_bool 0.15 v && EE.Qlt_bool v 0.25 then 2
        else if Qle_bool 0 v && EE.Qlt_bool v 0.15 then 1
        else v).
Proof.
  intros H. unfold ndvi_classified.
  repeat (apply where_valid;
          [| first [ apply between_valid | apply gte_valid ]; exact H ]).
  exact H.
Qed.

Lemma ndvi_classified_masked :
  ndvi p = None -> ndvi_classified ndvi p = None.
Proof.
  intros H. unfold ndvi_classified.
  unfold EE.where_ at 1 2 3 4 5 6 7. now rewrite H.
Qed.

End AtPixel.

(** ** The masked NDVI band *)

Lemma mask_water_spec (raw : EE.Band) (p : EE.Pixel) (v : Q) :
  mask_water raw p = Some v <-> raw p = Some v /\ 0 <= v.
Proof.
  unfold mask_water, EE.updateMask, EE.gte, EE.binop, EE.constant.
  destruct (raw p) as [x |]; [| split; [discriminate | intros [H _]; discriminate]].
  rewrite nonzero_of_bool.
  destruct (Qle_bool 0 x) eqn:E.
  - apply Qle_bool_iff in E. split.
    + intros H. injection H as <-. now split.
    + now intros [H _].
  - split; [discriminate |]. intros [H L]. injection H as <-.
    apply Qle_bool_iff in L. congruence.
Qed.

Lemma mask_water_negative (raw : EE.Band) (p : EE.Pixel) (v : Q) :
  raw p = Some v -> v < 0 -> mask_water raw p = None.
Proof.
  intros H L. destruct (mask_water raw p) as [x |] eqn:E; [| reflexivity].
  apply mask_water_spec in E. destruct E as [E1 E2].
  rewrite H in E1. injection E1 as ->. lra.
Qed.

Lemma getNDVI_spec (image : EE.Image) (p : EE.Pixel) (b8 b4 : Q) :
  image "B8"%string p = Some b8 -> image "B4"%string p = Some b4 ->
  0 <= b8 -> 0 <= b4 ->
  getNDVI image p = Some ((b8 - b4) / (b8 + b4)).
Proof.
  intros H8 H4 L8 L4. unfold getNDVI, EE.normalizedDifference.
  rewrite H8, H4. now rewrite !Qlt_bool_false.
Qed.

(** ** The classes *)

Lemma ndvi_classified_by_rules (ndvi : EE.Band) (p : EE.Pixel) :
  ndvi_classified ndvi p = classify_by_rules (ndvi p).
Proof.
  destruct (ndvi p) as [v |] eqn:H.
  - rewrite (ndvi_classified_valid ndvi p v H).
    unfold classify_by_rules, rule_table, rule_matches, classId. simpl.
    split_at_breakpoints v; decide_comparisons; reflexivity.
  - now apply ndvi_classified_masked.
Qed.

Lemma ndvi_classified_as_fold (ndvi : EE.Band) :
  ndvi_classified ndvi =
  List.fold_left
    (fun acc r => EE.where_ acc (fst r) (EE.constant (snd r)))
    (conditions ndvi) ndvi.
Proof. reflexivity. Qed.

Lemma holds_at_between (ndvi : EE.Band) (p : EE.Pixel) (v lo hi : Q) :
  ndvi p = Some v ->
  holds_at p (EE.And (EE.gte ndvi (EE.constant lo)) (EE.lt ndvi (EE.constant hi)))
  = Qle_bool lo v && EE.Qlt_bool v hi.
Proof.
  intros H. unfold holds_at.
  now rewrite (between_valid ndvi p v lo hi H), nonzero_of_bool.
Qed.

Lemma holds_at_gte (ndvi : EE.Band) (p : EE.Pixel) (v lo : Q) :
  ndvi p = Some v ->
  holds_at p (EE.gte ndvi (EE.constant lo)) = Qle_bool lo v.
Proof.
  intros H. unfold holds_at.
  now rewrite (gte_valid ndvi p v lo H), nonzero_of_bool.
Qed.

(** On a valid pixel with a value of 0 or more, exactly one test of the
    chain holds, and the pixel gets the value of that [where]. *)
Lemma one_condition_holds (ndvi : EE.Band) (p : EE.Pixel) (v : Q) :
  ndvi p = Some v -> 0 <= v ->
  exists test c,
    List.filter (fun r => holds_at p (fst r)) (conditions ndvi) = [(test, c)] /\
    ndvi_classified ndvi p = Some c /\
    In c [1; 2; 3; 4; 5; 6; 7].
Proof.
  intros H L.
  rewrite (ndvi_classified_valid ndvi p v H).
  unfold conditions. cbn [List.filter fst].
  rewrite !(holds_at_between ndvi p v _ _ H), (holds_at_gte ndvi p v _ H).
  split_at_breakpoints v; try lra; decide_comparisons; cbn [andb];
    eexists; eexists; (split; [reflexivity | split; [reflexivity |]]);
    cbn [In]; tauto.
Qed.

(** C1.  The class of a pixel depends on its NDVI value alone, with the
    lower bound of each interval included: a valid pixel of value [v] gets
    class 1 on [0, 0.15), 2 on [0.15, 0.25), 3 on [0.25, 0.35), 4 on
    [0.35, 0.45), 5 on [0.45, 0.65), 6 on [0.65, 0.75) and 7 from 0.75 on;
    0.10 gives 1, 0.30 gives 3, 0.80 gives 7 and the breakpoint 0.25 gives
    3; a masked pixel stays masked. *)
Theorem classification_by_value (ndvi : EE.Band) (p : EE.Pixel) :
  (ndvi p = None -> ndvi_classified ndvi p = None) /\
  (forall v, ndvi p = Some v ->
     (0 <= v < 0.15 -> ndvi_classified ndvi p = Some 1) /\
     (0.15 <= v < 0.25 -> ndvi_classified ndvi p = Some 2) /\
     (0.25 <= v < 0.35 -> ndvi_classified ndvi p = Some 3) /\
     (0.35 <= v < 0.45 -> ndvi_classified ndvi p = Some 4) /\
     (0.45 <= v < 0.65 -> ndvi_classified ndvi p = Some 5) /\
     (0.65 <= v < 0.75 -> ndvi_classified ndvi p = Some 6) /\
     (0.75 <= v -> ndvi_classified ndvi p = Some 7)) /\
  (ndvi p = Some 0.10 -> ndvi_classified ndvi p = Some 1) /\
  (ndvi p = Some 0.30 -> ndvi_classified ndvi p = Some 3) /\
  (ndvi p = Some 0.80 -> ndvi_classified ndvi p = Some 7) /\
  (ndvi p = Some 0.25 -> ndvi_classified ndvi p = Some 3) /\
  (forall (ndvi' : EE.Band) (p' : EE.Pixel),
     ndvi' p' = ndvi p ->
     ndvi_classified ndvi' p' = ndvi_classified ndvi p).
Proof.
  split; [apply ndvi_classified_masked |].
  split.
  { intros v H. rewrite (ndvi_classified_valid ndvi p v H).
    repeat split; intros B; decide_comparisons; reflexivity. }
  repeat split.
  1-4: intros H; now rewrite (ndvi_classified_valid ndvi p _ H).
  intros ndvi' p' E. now rewrite !ndvi_classified_by_rules, E.
Qed.

Lemma classification_by_value_witness :
  ndvi_classified (EE.constant 0.30) (0, 0)%Z = Some 3 /\
  ndvi_classified (EE.constant 0.25) (4, 2)%Z = Some 3 /\
  ndvi_classified (fun _ => None) (0, 0)%Z = None.
Proof.
  split; [| split].
  - destruct (classification_by_value (EE.constant 0.30) (0, 0)%Z)
      as (_ & H & _).
    destruct (H 0.30 eq_refl) as (_ & _ & H3 & _).
    apply H3. split; [apply Qle_bool_iff | apply Qlt_bool_iff]; reflexivity.
  - destruct (classification_by_value (EE.constant 0.25) (4, 2)%Z)
      as (_ & _ & _ & _ & _ & H & _).
    apply H. reflexivity.
  - destruct (classification_by_value (fun _ => None) (0, 0)%Z) as (H & _).
    apply H. reflexivity.
Defined.

(** C2.  The chain of seven [where] calls computes, at every pixel, what
    the rule table computes on the NDVI value of that pixel: the tests read
    [ndvi], not the image classified so far.  A chain whose tests read the
    image classified so far gives another result. *)
Theorem where_chain_is_rule_table :
  (forall (ndvi : EE.Band) (p : EE.Pixel),
     ndvi_classified ndvi p = classify_by_rules (ndvi p)) /\
  (exists (ndvi : EE.Band) (p : EE.Pixel),
     classified_feeding_back ndvi p <> ndvi_classified ndvi p).
Proof.
  split; [exact ndvi_classified_by_rules |].
  exists (EE.constant 0.10), (0, 0)%Z.
  rewrite ndvi_classified_by_rules. vm_compute. discriminate.
Qed.

(** The normalized difference of two bands that are not negative is at
    most 1. *)
Lemma getNDVI_le_1 (image : EE.Image) (p : EE.Pixel) (v : Q) :
  getNDVI image p = Some v -> v <= 1.
Proof.
  unfold getNDVI, EE.normalizedDifference.
  destruct (image "B8"%string p) as [a |]; [| discriminate].
  destruct (image "B4"%string p) as [b |]; [| discriminate].
  destruct (EE.Qlt_bool a 0) eqn:Ea; [discriminate |].
  destruct (EE.Qlt_bool b 0) eqn:Eb; [discriminate |].
  cbn. intros H. injection H as <-.
  assert (La : 0 <= a).
  { destruct (Qlt_le_dec a 0) as [L | L]; [| exact L].
    apply Qlt_bool_iff in L. congruence. }
  assert (Lb : 0 <= b).
  { destruct (Qlt_le_dec b 0) as [L | L]; [| exact L].
    apply Qlt_bool_iff in L. congruence. }
  destruct (Qlt_le_dec 0 (a + b)) as [L | L].
  - apply Qle_shift_div_r; [exact L | lra].
  - assert (Z : a - b == 0) by lra.
    unfold Qdiv. rewrite Z, Qmult_0_l. lra.
Qed.

(** A class is never the value it replaces when that value is between 0
    and 1. *)
Lemma class_differs (ndvi : EE.Band) (p : EE.Pixel) (v c : Q) :
  ndvi p = Some v -> 0 <= v <= 1 ->
  ndvi_classified ndvi p = Some c -> ~ c == v.
Proof.
  intros H B. rewrite (ndvi_classified_valid ndvi p v H).
  split_at_breakpoints v; decide_comparisons; cbn [andb];
    intros E; injection E as <-; lra.
Qed.

(** C10.  The seven tests split the valid NDVI values: on the masked NDVI
    band every valid pixel has a value of 0 or more, exactly one test of
    the chain holds there, and the classified pixel is the value of that
    [where], one of 1 to 7; a masked pixel stays masked.  Where the band is
    the normalized difference of an image, the class differs from the NDVI
    value of the pixel. *)
Theorem conditions_partition (raw : EE.Band) (p : EE.Pixel) :
  let ndvi := mask_water raw in
  ndvi_classified ndvi =
    List.fold_left
      (fun acc r => EE.where_ acc (fst r) (EE.constant (snd r)))
      (conditions ndvi) ndvi /\
  match ndvi p with
  | None => ndvi_classified ndvi p = None
  | Some v =>
      0 <= v /\
      exists test c,
        List.filter (fun r => holds_at p (fst r)) (conditions ndvi)
          = [(test, c)] /\
        ndvi_classified ndvi p = Some c /\
        In c [1; 2; 3; 4; 5; 6; 7]
  end /\
  (forall (image : EE.Image) (v c : Q),
     raw = getNDVI image ->
     ndvi p = Some v ->
     ndvi_classified ndvi p = Some c ->
     ~ c == v).
Proof.
  intros ndvi. split; [apply ndvi_classified_as_fold |]. split.
  - destruct (ndvi p) as [v |] eqn:H.
    + assert (L : 0 <= v) by (apply (mask_water_spec raw p v), H).
      split; [exact L |]. exact (one_condition_holds ndvi p v H L).
    + now apply ndvi_classified_masked.
  - intros image v c -> H. apply (class_differs ndvi p v c H).
    apply mask_water_spec in H. destruct H as [H L].
    split; [exact L | exact (getNDVI_le_1 image p v H)].
Qed.

Lemma conditions_partition_witness :
  exists v,
    mask_water (getNDVI Example.flat_image) (0, 0)%Z = Some v /\
    ndvi_classified (mask_water (getNDVI Example.flat_image)) (0, 0)%Z
      = Some 5 /\
    ~ 5 == v.
Proof.
  eexists. split; [reflexivity |]. split; [reflexivity |].
  destruct (conditions_partition (getNDVI Example.flat_image) (0, 0)%Z)
    as (_ & _ & H).
  apply (H Example.flat_image); reflexivity.
Defined.

(* ===================================================================== *)
(** * Properties of the area-of-interest resolver                         *)
(* ===================================================================== *)

Local Open Scope string_scope.

(** The subscript chain of line 42 succeeds exactly on the documents that
    have coordinates. *)
Lemma coordinates_of_spec (geojson_data coordinates : Py.value) :
  coordinates_of geojson_data = inr coordinates <->
  has_coordinates geojson_data coordinates.
Proof.
  unfold coordinates_of, has_coordinates. split.
  - destruct geojson_data as [| | | | | | d]; try discriminate.
    cbn. destruct (Py.dict_get d "features") as [fs |] eqn:Hf;
      [| discriminate].
    destruct fs as [| | | | s | l |]; try discriminate.
    + cbn. unfold Py.seq_get. cbn.
      destruct (list_ascii_of_string s); discriminate.
    + destruct l as [| f l]; [discriminate |].
      cbn. destruct f as [| | | | | | fd]; try discriminate.
      cbn. destruct (Py.dict_get fd "geometry") as [g |] eqn:Hg;
        [| discriminate].
      destruct g as [| | | | | | gd]; try discriminate.
      cbn. destruct (Py.dict_get gd "coordinates") as [c |] eqn:Hc;
        [| discriminate].
      intros H. injection H as <-.
      now exists d, l, fd, gd.
  - intros (d & l & fd & gd & -> & Hf & Hg & Hc).
    cbn. rewrite Hf. cbn. rewrite Hg. cbn. now rewrite Hc.
Qed.

Section ResolverProperties.

Variable json_loads : string -> Py.raises Py.value.
Variable Geometry_Polygon : Py.value -> Py.raises EE.Geometry.

Let geometry_of := file_geometry json_loads Geometry_Polygon.
Let loop := for_upload_file json_loads Geometry_Polygon.
Let valid := valid_upload json_loads Geometry_Polygon.

Lemma file_geometry_valid (upload_file : UploadedFile) (g : EE.Geometry) :
  valid upload_file g ->
  geometry_of upload_file = inr g.
Proof.
  intros (j & c & Hj & Hc & Hp). apply coordinates_of_spec in Hc.
  unfold geometry_of, file_geometry.
  cbn -[coordinates_of]. rewrite Hj. cbn -[coordinates_of].
  rewrite Hc. exact Hp.
Qed.

Lemma file_geometry_returns (upload_file : UploadedFile) (g : EE.Geometry) :
  geometry_of upload_file = inr g ->
  valid upload_file g.
Proof.
  unfold geometry_of, file_geometry.
  cbn -[coordinates_of].
  destruct (json_loads (read upload_file)) as [e | j] eqn:Hj;
    [discriminate |].
  cbn -[coordinates_of].
  destruct (coordinates_of j) as [e | c] eqn:Hc; [discriminate |].
  intros H. exists j, c.
  repeat split; try assumption. now apply coordinates_of_spec.
Qed.

(** One turn of the loop. *)
Lemma for_upload_file_step (upload_file : UploadedFile)
    (rest : list UploadedFile) (geometry_aoi_list : list EE.Geometry) :
  loop (upload_file :: rest) geometry_aoi_list =
  match geometry_of upload_file with
  | inl e => inl e
  | inr geometry => loop rest (geometry_aoi_list ++ [geometry])%list
  end.
Proof.
  unfold loop, geometry_of. cbn -[file_geometry].
  now destruct (file_geometry json_loads Geometry_Polygon upload_file).
Qed.

(** The loop appends one geometry per file, in the order of the files. *)
Lemma for_upload_file_valid (upload_files : list UploadedFile)
    (gs : list EE.Geometry) :
  Forall2 valid upload_files gs ->
  forall geometry_aoi_list,
    loop upload_files geometry_aoi_list
    = inr (geometry_aoi_list ++ gs)%list.
Proof.
  induction 1 as [| f g fs gs Hf _ IH]; intros acc.
  - cbn. now rewrite app_nil_r.
  - rewrite for_upload_file_step, (file_geometry_valid f g Hf).
    rewrite IH, <- app_assoc. reflexivity.
Qed.

(** The loop stops at the first file whose geometry cannot be built, with
    the exception of that file. *)
Lemma for_upload_file_raises (before after : list UploadedFile)
    (upload_file : UploadedFile) (gs : list EE.Geometry) (e : Py.exn) :
  Forall2 valid before gs ->
  geometry_of upload_file = inl e ->
  forall geometry_aoi_list,
    loop (before ++ upload_file :: after)%list geometry_aoi_list = inl e.
Proof.
  intros Hb He. induction Hb as [| f g fs gs Hf _ IH]; intros acc.
  - cbn [app]. now rewrite for_upload_file_step, He.
  - cbn [app]. rewrite for_upload_file_step, (file_geometry_valid f g Hf).
    apply IH.
Qed.

Lemma for_upload_file_raises_in (upload_files : list UploadedFile)
    (upload_file : UploadedFile) (e : Py.exn) :
  In upload_file upload_files ->
  geometry_of upload_file = inl e ->
  forall geometry_aoi_list,
    exists e', loop upload_files geometry_aoi_list = inl e'.
Proof.
  intros Hin He.
  induction upload_files as [| f fs IH]; [contradiction |]; intros acc.
  rewrite for_upload_file_step.
  destruct (geometry_of f) as [e' | g] eqn:Hf.
  - now exists e'.
  - destruct Hin as [-> | Hin]; [congruence |]. now apply IH.
Qed.

Lemma for_upload_file_length (upload_files : list UploadedFile) :
  forall geometry_aoi_list l,
    loop upload_files geometry_aoi_list = inr l ->
    List.length l
    = (List.length geometry_aoi_list + List.length upload_files)%nat.
Proof.
  induction upload_files as [| f fs IH]; intros acc l.
  - cbn. intros H. injection H as <-. lia.
  - rewrite for_upload_file_step.
    destruct (geometry_of f) as [e | g]; [discriminate |].
    intros H. apply IH in H. rewrite H, length_app. cbn. lia.
Qed.

(** [upload_files_proc] in terms of its loop. *)
Lemma upload_files_proc_unfold (upload_files : list UploadedFile) :
  upload_files_proc json_loads Geometry_Polygon upload_files =
  match loop upload_files [] with
  | inl e => inl e
  | inr [] => inr default_point
  | inr (g :: l) => inr (EE.MultiPolygon (g :: l))
  end.
Proof.
  unfold upload_files_proc, loop. cbn -[for_upload_file].
  destruct (for_upload_file json_loads Geometry_Polygon upload_files [])
    as [e | [| g l]]; reflexivity.
Qed.

End ResolverProperties.

Lemma has_coordinates_unique (geojson_data c c' : Py.value) :
  has_coordinates geojson_data c -> has_coordinates geojson_data c' -> c = c'.
Proof.
  intros H H'. apply coordinates_of_spec in H, H'. congruence.
Qed.

(** C4.  Without uploaded files the resolver returns the point
    [27.98, 36.13] and raises nothing; the point is returned for no other
    list of files, whose result, when there is one, is a multi-polygon. *)
Theorem no_upload_gives_default_point
    (json_loads : string -> Py.raises Py.value)
    (Geometry_Polygon : Py.value -> Py.raises EE.Geometry) :
  upload_files_proc json_loads Geometry_Polygon []
    = inr (EE.Point [27.98; 36.13]%Q) /\
  (forall upload_files,
     upload_files_proc json_loads Geometry_Polygon upload_files
       = inr (EE.Point [27.98; 36.13]%Q) ->
     upload_files = []) /\
  (forall upload_files g,
     upload_files <> [] ->
     upload_files_proc json_loads Geometry_Polygon upload_files = inr g ->
     exists l, g = EE.MultiPolygon l).
Proof.
  split; [reflexivity |]. split.
  - intros fs. rewrite upload_files_proc_unfold.
    destruct (for_upload_file json_loads Geometry_Polygon fs [])
      as [e | [| g l]] eqn:E; try discriminate.
    intros _. apply for_upload_file_length in E.
    destruct fs; [reflexivity | discriminate].
  - intros fs g Hne. rewrite upload_files_proc_unfold.
    destruct (for_upload_file json_loads Geometry_Polygon fs [])
      as [e | [| g' l]] eqn:E; try discriminate.
    + apply for_upload_file_length in E.
      destruct fs; [contradiction | discriminate].
    + intros H. injection H as <-. now exists (g' :: l).
Qed.

Lemma no_upload_gives_default_point_witness :
  upload_files_proc Example.loads Example.Polygon []
    = inr (EE.Point [27.98; 36.13]%Q) /\
  exists l,
    upload_files_proc Example.loads Example.Polygon [Example.square]
    = inr (EE.MultiPolygon l).
Proof.
  destruct (no_upload_gives_default_point Example.loads Example.Polygon)
    as (H0 & _ & H).
  split; [exact H0 |].
  destruct (H [Example.square]
              (EE.MultiPolygon [EE.Polygon Example.square_coordinates]))
    as [l Hl].
  - discriminate.
  - vm_compute. reflexivity.
  - exists l. rewrite <- Hl. vm_compute. reflexivity.
Defined.

Lemma upload_files_proc_valid
    (json_loads : string -> Py.raises Py.value)
    (Geometry_Polygon : Py.value -> Py.raises EE.Geometry)
    (upload_files : list UploadedFile) (gs : list EE.Geometry) :
  upload_files <> [] ->
  Forall2 (valid_upload json_loads Geometry_Polygon) upload_files gs ->
  upload_files_proc json_loads Geometry_Polygon upload_files
    = inr (EE.MultiPolygon gs).
Proof.
  intros Hne Hv. rewrite upload_files_proc_unfold.
  rewrite (for_upload_file_valid _ _ _ _ Hv []). cbn [app].
  destruct Hv; [contradiction | reflexivity].
Qed.

(** ** The polygon constructor on the polygons of GeoJSON *)

Lemma forallb_impl {A : Type} (f g : A -> bool) (l : list A) :
  (forall x, f x = true -> g x = true) ->
  forallb f l = true -> forallb g l = true.
Proof.
  intros H. rewrite !forallb_forall. auto.
Qed.

Lemma pair_is_position (v : Py.value) :
  EE.is_pair v = true -> EE.is_position v = true.
Proof.
  destruct v as [| | | | | l |]; try discriminate.
  destruct l as [| x [| y [| z l]]]; try discriminate. exact (fun H => H).
Qed.

Lemma list_of_impl (f g : Py.value -> bool) (v : Py.value) :
  (forall x, f x = true -> g x = true) ->
  EE.list_of f v = true -> EE.list_of g v = true.
Proof.
  intros H. destruct v as [| | | | | l |]; try discriminate.
  destruct l as [| x l]; [discriminate |].
  unfold EE.list_of. now apply forallb_impl.
Qed.

Lemma linear_ring_positions (v : Py.value) :
  linear_ring v = true -> EE.list_of EE.is_position v = true.
Proof.
  destruct v as [| | | | | l |]; try discriminate.
  destruct l as [| x l]; [discriminate |].
  unfold linear_ring, EE.list_of. intros H.
  apply andb_true_iff in H. destruct H as [H _].
  apply andb_true_iff in H. now destruct H as [H _].
Qed.

(** The constructor keeps the coordinates of a list of rings whose
    positions are pairs as they are ... *)
Lemma client_Polygon_planar
    (elsewhere : Py.value -> Py.raises EE.Geometry) (c : Py.value) :
  planar c = true ->
  EE.client_Polygon elsewhere c = inr (EE.Polygon c).
Proof.
  unfold planar. intros P.
  assert (R : EE.list_of (EE.list_of EE.is_position) c = true).
  { revert P. apply list_of_impl. intros r.
    apply list_of_impl. exact pair_is_position. }
  unfold EE.client_Polygon. rewrite R, P.
  destruct c; try discriminate; reflexivity.
Qed.

(** ... and raises on the polygon of GeoJSON that has a position with an
    altitude. *)
Lemma client_Polygon_altitude
    (elsewhere : Py.value -> Py.raises EE.Geometry) (c : Py.value) :
  geojson_polygon c = true -> planar c = false ->
  EE.client_Polygon elsewhere c = inl Py.EEException.
Proof.
  unfold planar, geojson_polygon. intros G P.
  assert (R : EE.list_of (EE.list_of EE.is_position) c = true).
  { revert G. apply list_of_impl. exact linear_ring_positions. }
  unfold EE.client_Polygon. rewrite R, P.
  destruct c; try discriminate; reflexivity.
Qed.

Lemma geojson_upload_valid
    (json_loads : string -> Py.raises Py.value)
    (elsewhere : Py.value -> Py.raises EE.Geometry)
    (upload_file : UploadedFile) (c : Py.value) :
  geojson_upload json_loads upload_file c -> planar c = true ->
  valid_upload json_loads (EE.client_Polygon elsewhere) upload_file
               (EE.Polygon c).
Proof.
  intros (j & Hj & Hc & _) P. exists j, c.
  repeat split; try assumption. now apply client_Polygon_planar.
Qed.

(** C5.  For a non-empty list of uploads that each hold a GeoJSON polygon
    whose positions are pairs of numbers, the resolver returns a
    multi-polygon with one polygon per file, in the order of the files,
    each with the coordinates of its file. *)
Theorem one_polygon_per_file
    (json_loads : string -> Py.raises Py.value)
    (elsewhere : Py.value -> Py.raises EE.Geometry)
    (upload_files : list UploadedFile) (cs : list Py.value) :
  upload_files <> [] ->
  Forall2
    (fun upload_file c =>
       geojson_upload json_loads upload_file c /\ planar c = true)
    upload_files cs ->
  upload_files_proc json_loads (EE.client_Polygon elsewhere) upload_files
    = inr (EE.MultiPolygon (List.map EE.Polygon cs)) /\
  List.length (List.map EE.Polygon cs) = List.length upload_files.
Proof.
  intros Hne Hv. split.
  - apply upload_files_proc_valid; [exact Hne |].
    clear Hne. induction Hv as [| f c fs cs [Hf Hp] _ IH]; cbn.
    + constructor.
    + constructor; [now apply geojson_upload_valid | exact IH].
  - rewrite length_map. symmetry. exact (Forall2_length Hv).
Qed.

Lemma triangle_is_geojson :
  geojson_upload Example.loads Example.triangle Example.triangle_coordinates.
Proof.
  eexists. split; [vm_compute; reflexivity |].
  split; [| reflexivity].
  apply coordinates_of_spec. vm_compute. reflexivity.
Defined.

Lemma square_is_geojson :
  geojson_upload Example.loads Example.square Example.square_coordinates.
Proof.
  eexists. split; [vm_compute; reflexivity |].
  split; [| reflexivity].
  apply coordinates_of_spec. vm_compute. reflexivity.
Defined.

Lemma roof_is_geojson :
  geojson_upload Example.loads Example.roof Example.roof_coordinates.
Proof.
  eexists. split; [vm_compute; reflexivity |].
  split; [| reflexivity].
  apply coordinates_of_spec. vm_compute. reflexivity.
Defined.

Lemma tower_is_geojson :
  geojson_upload Example.loads Example.tower Example.tower_coordinates.
Proof.
  eexists. split; [vm_compute; reflexivity |].
  split; [| reflexivity].
  apply coordinates_of_spec. vm_compute. reflexivity.
Defined.

Lemma triangle_is_valid :
  valid_upload Example.loads Example.Polygon Example.triangle
               (EE.Polygon Example.triangle_coordinates).
Proof.
  apply geojson_upload_valid; [apply triangle_is_geojson | reflexivity].
Defined.

Lemma square_is_valid :
  valid_upload Example.loads Example.Polygon Example.square
               (EE.Polygon Example.square_coordinates).
Proof.
  apply geojson_upload_valid; [apply square_is_geojson | reflexivity].
Defined.

Lemma one_polygon_per_file_witness :
  upload_files_proc Example.loads Example.Polygon
    [Example.triangle; Example.square]
  = inr (EE.MultiPolygon [EE.Polygon Example.triangle_coordinates;
                          EE.Polygon Example.square_coordinates]).
Proof.
  apply (proj1 (one_polygon_per_file Example.loads _
           [Example.triangle; Example.square]
           [Example.triangle_coordinates; Example.square_coordinates]
           ltac:(discriminate)
           ltac:(repeat constructor;
                 [apply triangle_is_geojson | apply square_is_geojson]))).
Defined.

(** An upload that holds a polygon of GeoJSON with altitudes, between two
    uploads without: the resolver raises and returns no multi-polygon. *)
Lemma one_polygon_per_file_fails_with_altitude :
  ~ (forall (upload_files : list UploadedFile) (cs : list Py.value),
       upload_files <> [] ->
       Forall2 (geojson_upload Example.loads) upload_files cs ->
       exists gs,
         upload_files_proc Example.loads Example.Polygon upload_files
           = inr (EE.MultiPolygon gs) /\
         List.length gs = List.length upload_files).
Proof.
  intros H.
  destruct (H [Example.triangle; Example.roof; Example.square]
              [Example.triangle_coordinates; Example.roof_coordinates;
               Example.square_coordinates]) as (gs & E & _).
  - discriminate.
  - repeat constructor;
      [ apply triangle_is_geojson | apply roof_is_geojson
      | apply square_is_geojson ].
  - vm_compute in E. discriminate E.
Qed.

(** C6.  For one upload that holds a GeoJSON polygon whose positions are
    pairs of numbers, the resolver returns a geometry whose only polygon
    has the coordinates of the file, unchanged. *)
Theorem single_upload_keeps_ring
    (json_loads : string -> Py.raises Py.value)
    (elsewhere : Py.value -> Py.raises EE.Geometry)
    (upload_file : UploadedFile) (c : Py.value) :
  geojson_upload json_loads upload_file c ->
  planar c = true ->
  upload_files_proc json_loads (EE.client_Polygon elsewhere) [upload_file]
    = inr (EE.MultiPolygon [EE.Polygon c]).
Proof.
  intros Hv P.
  apply (upload_files_proc_valid json_loads (EE.client_Polygon elsewhere)
           [upload_file] [EE.Polygon c]).
  - discriminate.
  - repeat constructor. now apply geojson_upload_valid.
Qed.

Lemma single_upload_keeps_ring_witness :
  upload_files_proc Example.loads Example.Polygon [Example.triangle]
    = inr (EE.MultiPolygon [EE.Polygon Example.triangle_coordinates]).
Proof.
  apply (single_upload_keeps_ring Example.loads _ Example.triangle
           Example.triangle_coordinates).
  - apply triangle_is_geojson.
  - reflexivity.
Defined.

(** One upload that holds a polygon of GeoJSON with altitudes: the
    resolver raises, and no geometry carries the ring. *)
Lemma single_upload_fails_with_altitude :
  ~ (forall (upload_file : UploadedFile) (c : Py.value),
       geojson_upload Example.loads upload_file c ->
       upload_files_proc Example.loads Example.Polygon [upload_file]
         = inr (EE.MultiPolygon [EE.Polygon c])).
Proof.
  intros H.
  pose proof (H Example.tower Example.tower_coordinates tower_is_geojson)
    as E.
  vm_compute in E. discriminate E.
Qed.

Lemma main_propagates
    (json_loads : string -> Py.raises Py.value)
    (Geometry_Polygon : Py.value -> Py.raises EE.Geometry)
    (archive : string -> list EE.Scene)
    (in_date_range : string -> string -> EE.Scene -> bool)
    (intersects : EE.Geometry -> EE.Scene -> bool)
    (inside : EE.Geometry -> EE.Pixel -> bool)
    (median : list EE.Image -> EE.Image)
    (w : Widgets) (e : Py.exn) :
  upload_files_proc json_loads Geometry_Polygon (upload_files w) = inl e ->
  main json_loads Geometry_Polygon archive in_date_range intersects inside
       median w = inl e.
Proof.
  intros H. unfold main. cbn -[upload_files_proc]. now rewrite H.
Qed.

(** C7.  An upload that does not parse, whose document has no coordinates,
    or whose coordinates are not accepted for a polygon makes the resolver
    raise, wherever the file stands in the list, and [main] raises the same
    exception: no geometry is returned, neither the default point nor a
    multi-polygon of the other files. *)
Theorem bad_upload_aborts
    (json_loads : string -> Py.raises Py.value)
    (Geometry_Polygon : Py.value -> Py.raises EE.Geometry)
    (upload_files : list UploadedFile) (upload_file : UploadedFile) :
  In upload_file upload_files ->
  (exists e, json_loads (read upload_file) = inl e) \/
  (exists geojson_data,
     json_loads (read upload_file) = inr geojson_data /\
     forall c, ~ has_coordinates geojson_data c) \/
  (exists geojson_data c e,
     json_loads (read upload_file) = inr geojson_data /\
     has_coordinates geojson_data c /\
     Geometry_Polygon c = inl e) ->
  (exists e,
     upload_files_proc json_loads Geometry_Polygon upload_files = inl e /\
     forall archive in_date_range intersects inside median start_ end_,
       main json_loads Geometry_Polygon archive in_date_range intersects
            inside median (mkwidgets upload_files start_ end_) = inl e) /\
  (forall g,
     upload_files_proc json_loads Geometry_Polygon upload_files <> inr g).
Proof.
  intros Hin Hbad.
  assert (He : exists e,
             file_geometry json_loads Geometry_Polygon upload_file = inl e).
  { destruct (file_geometry json_loads Geometry_Polygon upload_file)
      as [e | g] eqn:E; [now exists e |].
    apply file_geometry_returns in E.
    destruct E as (j & c & Hj & Hc & Hp).
    destruct Hbad
      as [[e He] | [(j' & Hj' & Hn) | (j' & c' & e & Hj' & Hc' & Hp')]].
    - congruence.
    - assert (j' = j) by congruence. subst j'. now destruct (Hn c).
    - assert (j' = j) by congruence. subst j'.
      rewrite (has_coordinates_unique j c c' Hc Hc') in Hp. congruence. }
  destruct He as [e He].
  destruct (for_upload_file_raises_in json_loads Geometry_Polygon
              upload_files upload_file e Hin He []) as [e' He'].
  assert (R : upload_files_proc json_loads Geometry_Polygon upload_files
              = inl e').
  { rewrite upload_files_proc_unfold. now rewrite He'. }
  split.
  - exists e'. split; [exact R |]. intros. now apply main_propagates.
  - intros g. rewrite R. discriminate.
Qed.

Lemma bad_upload_aborts_witness :
  (exists e,
     upload_files_proc Example.loads Example.Polygon
       [Example.triangle; Example.truncated; Example.square] = inl e /\
     Example.run (mkwidgets
       [Example.triangle; Example.truncated; Example.square] None None)
     = inl e) /\
  (forall g,
     upload_files_proc Example.loads Example.Polygon
       [Example.square; Example.no_features] <> inr g).
Proof.
  split.
  - destruct (bad_upload_aborts Example.loads Example.Polygon
                [Example.triangle; Example.truncated; Example.square]
                Example.truncated) as ((e & H1 & H2) & _).
    + right. left. reflexivity.
    + left. eexists. vm_compute. reflexivity.
    + exists e. split; [exact H1 | apply H2].
  - apply (bad_upload_aborts Example.loads Example.Polygon
             [Example.square; Example.no_features] Example.no_features).
    + right. left. reflexivity.
    + right. left. eexists. split; [vm_compute; reflexivity |].
      intros c H. apply coordinates_of_spec in H. vm_compute in H.
      discriminate.
Defined.

(* ===================================================================== *)
(** * Properties of the date window and of the query                      *)
(* ===================================================================== *)

Lemma list_ascii_of_string_app (s t : string) :
  list_ascii_of_string (s ++ t)
  = (list_ascii_of_string s ++ list_ascii_of_string t)%list.
Proof. induction s as [| c s IH]; cbn; [reflexivity | now rewrite IH]. Qed.

Lemma length_append (s t : string) :
  String.length (s ++ t) = (String.length s + String.length t)%nat.
Proof. induction s as [| c s IH]; cbn; [reflexivity | now rewrite IH]. Qed.

Lemma append_empty_r (s : string) : s ++ EmptyString = s.
Proof. induction s as [| c s IH]; cbn; [reflexivity | now rewrite IH]. Qed.

Lemma digit_code (n : Z) :
  (Z.of_nat (nat_of_ascii (Py.digit n)) - 48 = n mod 10)%Z.
Proof.
  unfold Py.digit.
  assert (B : (0 <= n mod 10 < 10)%Z) by (apply Z.mod_pos_bound; lia).
  rewrite nat_ascii_embedding by lia. lia.
Qed.

Lemma zfill_length (width : nat) : forall n,
  String.length (Py.zfill width n) = width.
Proof.
  induction width as [| w IH]; intros n; cbn; [reflexivity |].
  rewrite length_append, IH. cbn. lia.
Qed.

(** [zfill] writes the low digits of the number. *)
Lemma zfill_value (width : nat) : forall n,
  decimal_value (Py.zfill width n) = (n mod 10 ^ Z.of_nat width)%Z.
Proof.
  unfold decimal_value.
  induction width as [| w IH]; intros n.
  - cbn. now rewrite Z.mod_1_r.
  - cbn [Py.zfill]. rewrite list_ascii_of_string_app, fold_left_app, IH.
    cbn [list_ascii_of_string fold_left]. rewrite digit_code.
    rewrite Nat2Z.inj_succ, Z.pow_succ_r by lia.
    rewrite Z.rem_mul_r by lia. lia.
Qed.

Lemma strftime_iso (d : Py.date) :
  Py.strftime d "%Y-%m-%d"
  = Py.zfill 4 (Py.year d) ++ "-" ++ Py.zfill 2 (Py.month d)
    ++ "-" ++ Py.zfill 2 (Py.day d).
Proof.
  cbn [Py.strftime]. now rewrite append_empty_r.
Qed.

Local Open Scope Q_scope.

Lemma fetch_collection
    (archive : string -> list EE.Scene)
    (in_date_range : string -> string -> EE.Scene -> bool)
    (intersects : EE.Geometry -> EE.Scene -> bool)
    (start_date end_date : string) (geometry_aoi : EE.Geometry) :
  EE.fetch archive in_date_range intersects
    (collection start_date end_date geometry_aoi)
  = List.filter (intersects geometry_aoi)
      (List.filter (in_date_range start_date end_date)
         (List.filter
            (fun s =>
               match EE.property s "CLOUDY_PIXEL_PERCENTAGE" with
               | Some x => EE.Qlt_bool x 100
               | None => false
               end)
            (archive "COPERNICUS/S2_SR"%string))).
Proof. reflexivity. Qed.

Section Run.

Variable json_loads : string -> Py.raises Py.value.
Variable Geometry_Polygon : Py.value -> Py.raises EE.Geometry.
Variable archive : string -> list EE.Scene.
Variable in_date_range : string -> string -> EE.Scene -> bool.
Variable intersects : EE.Geometry -> EE.Scene -> bool.
Variable inside : EE.Geometry -> EE.Pixel -> bool.
Variable median : list EE.Image -> EE.Image.

Let run : Widgets -> Py.raises Page :=
  main json_loads Geometry_Polygon archive in_date_range intersects inside
       median.

(** [main] raises what the resolver raises and nothing else; when the
    resolver returns, the page is built from its geometry. *)
Lemma main_unfold (w : Widgets) :
  run w =
  match upload_files_proc json_loads Geometry_Polygon (upload_files w) with
  | inl e => inl e
  | inr geometry_aoi =>
      let start_date := start_date (start_picked w) in
      let end_date := end_date (end_picked w) in
      let collection := collection start_date end_date geometry_aoi in
      let sat_imagery :=
        median (clipped_collection archive in_date_range intersects inside
                                   collection geometry_aoi) in
      let ndvi := mask_water (getNDVI sat_imagery) in
      inr (mkpage collection sat_imagery ndvi (ndvi_classified ndvi))
  end.
Proof.
  unfold run, main. cbn -[upload_files_proc start_date end_date].
  now destruct (upload_files_proc json_loads Geometry_Polygon
                                  (upload_files w)).
Qed.

(** C3.  The NDVI layer of the page is computed from the median
    composite: where bands B8 and B4 of the composite are valid, not
    negative and of non-zero sum, the raw value is
    [(B8 - B4) / (B8 + B4)]; the layer keeps exactly the pixels whose raw
    value is 0 or more and masks every pixel whose raw value is below
    0. *)
Theorem ndvi_layer_is_masked_normalized_difference
    (w : Widgets) (page : Page) :
  run w = inr page ->
  exists geometry_aoi,
    upload_files_proc json_loads Geometry_Polygon (upload_files w)
      = inr geometry_aoi /\
    tci_image page
      = median (clipped_collection archive in_date_range intersects inside
                                   (query page) geometry_aoi) /\
    forall p : EE.Pixel,
      (forall b8 b4,
         tci_image page "B8"%string p = Some b8 ->
         tci_image page "B4"%string p = Some b4 ->
         0 <= b8 -> 0 <= b4 -> ~ b8 + b4 == 0 ->
         getNDVI (tci_image page) p = Some ((b8 - b4) / (b8 + b4)) /\
         (0 <= (b8 - b4) / (b8 + b4) ->
          ndvi_layer page p = Some ((b8 - b4) / (b8 + b4))) /\
         ((b8 - b4) / (b8 + b4) < 0 -> ndvi_layer page p = None)) /\
      (forall v,
         ndvi_layer page p = Some v <->
         getNDVI (tci_image page) p = Some v /\ 0 <= v) /\
      (forall v,
         getNDVI (tci_image page) p = Some v -> v < 0 ->
         ndvi_layer page p = None).
Proof.
  rewrite main_unfold.
  destruct (upload_files_proc json_loads Geometry_Polygon (upload_files w))
    as [e | g]; [discriminate |].
  cbv zeta. intros H. injection H as <-. cbn [tci_image ndvi_layer query].
  exists g. split; [reflexivity |]. split; [reflexivity |].
  intros p. split; [| split].
  - intros b8 b4 H8 H4 L8 L4 _.
    pose proof (getNDVI_spec _ p b8 b4 H8 H4 L8 L4) as E.
    split; [exact E |]. split; intros L.
    + apply mask_water_spec. now split.
    + now apply (mask_water_negative _ p _ E).
  - intros v. apply mask_water_spec.
  - intros v. apply mask_water_negative.
Qed.

(** C8.  The pickers default to 2023-02-10 and 2023-02-20; each date is
    written as four digits of the year, two of the month and two of the
    day with dashes between; for the picker values 2023-02-10 and
    2023-02-20 the strings are "2023-02-10" and "2023-02-20"; the query
    gets these two strings in its date filter, and the page is built
    whatever the order of the two dates. *)
Theorem date_window_strings :
  start_date None = "2023-02-10"%string /\
  end_date None = "2023-02-20"%string /\
  start_date (Some (Py.datetime 2023 2 10)) = "2023-02-10"%string /\
  end_date (Some (Py.datetime 2023 2 20)) = "2023-02-20"%string /\
  (forall d : Py.date,
     let iso :=
       (Py.zfill 4 (Py.year d) ++ "-" ++ Py.zfill 2 (Py.month d)
        ++ "-" ++ Py.zfill 2 (Py.day d))%string in
     start_date (Some d) = iso /\ end_date (Some d) = iso /\
     String.length iso = 10%nat /\
     ((0 <= Py.year d < 10000)%Z ->
      decimal_value (Py.zfill 4 (Py.year d)) = Py.year d) /\
     ((0 <= Py.month d < 100)%Z ->
      decimal_value (Py.zfill 2 (Py.month d)) = Py.month d) /\
     ((0 <= Py.day d < 100)%Z ->
      decimal_value (Py.zfill 2 (Py.day d)) = Py.day d)) /\
  (forall (w : Widgets) (geometry_aoi : EE.Geometry),
     upload_files_proc json_loads Geometry_Polygon (upload_files w)
       = inr geometry_aoi ->
     exists page,
       run w = inr page /\
       EE.filters (query page)
       = [ EE.Filter_lt "CLOUDY_PIXEL_PERCENTAGE" 100;
           EE.Filter_date (start_date (start_picked w))
                          (end_date (end_picked w));
           EE.Filter_bounds geometry_aoi ]) /\
  (exists page,
     run (mkwidgets [] (Some (Py.datetime 2023 2 20))
                       (Some (Py.datetime 2023 2 10)))
       = inr page /\
     In (EE.Filter_date "2023-02-20" "2023-02-10")
        (EE.filters (query page))).
Proof.
  repeat (split; [reflexivity |]).
  split; [| split].
  - intros d iso. subst iso. unfold start_date, end_date, date_input.
    rewrite strftime_iso.
    split; [reflexivity |]. split; [reflexivity |].
    split.
    { rewrite !length_append, !zfill_length. reflexivity. }
    repeat split; intros B; rewrite zfill_value;
      apply Z.mod_small; cbn; lia.
  - intros w g Hg. rewrite main_unfold, Hg. cbv zeta.
    eexists. split; reflexivity.
  - rewrite main_unfold. cbn [upload_files start_picked end_picked].
    eexists. split; [reflexivity |]. cbn. right. left. reflexivity.
Qed.

(** C9.  The query that [main] sends names the archive COPERNICUS/S2_SR
    and carries three filters, in this order: CLOUDY_PIXEL_PERCENTAGE less
    than 100, the date window, the bounds of the area of interest.  The
    service keeps the scenes that pass the three; the first one is strict:
    a scene passes it exactly when its percentage is below 100. *)
Theorem collection_filters
    (start_ end_ : string) (geometry_aoi : EE.Geometry) :
  collection start_ end_ geometry_aoi
  = EE.mkcollection "COPERNICUS/S2_SR"
      [ EE.Filter_lt "CLOUDY_PIXEL_PERCENTAGE" 100;
        EE.Filter_date start_ end_;
        EE.Filter_bounds geometry_aoi ] /\
  (forall s : EE.Scene,
     In s (EE.fetch archive in_date_range intersects
             (collection start_ end_ geometry_aoi)) <->
     In s (archive "COPERNICUS/S2_SR"%string) /\
     (exists x,
        EE.property s "CLOUDY_PIXEL_PERCENTAGE" = Some x /\ x < 100) /\
     in_date_range start_ end_ s = true /\
     intersects geometry_aoi s = true) /\
  (forall s : EE.Scene,
     EE.property s "CLOUDY_PIXEL_PERCENTAGE" = Some 100 ->
     ~ In s (EE.fetch archive in_date_range intersects
               (collection start_ end_ geometry_aoi))) /\
  (forall (w : Widgets) (page : Page),
     run w = inr page ->
     exists g,
       upload_files_proc json_loads Geometry_Polygon (upload_files w)
         = inr g /\
       query page
       = collection (start_date (start_picked w)) (end_date (end_picked w))
                    g).
Proof.
  split; [reflexivity |].
  assert (K : forall s : EE.Scene,
             match EE.property s "CLOUDY_PIXEL_PERCENTAGE" with
             | Some x => EE.Qlt_bool x 100
             | None => false
             end = true <->
             exists x,
               EE.property s "CLOUDY_PIXEL_PERCENTAGE" = Some x /\ x < 100).
  { intros s. destruct (EE.property s "CLOUDY_PIXEL_PERCENTAGE") as [x |].
    - rewrite Qlt_bool_iff. split.
      + intros L. now exists x.
      + intros (y & E & L). now injection E as ->.
    - split; [discriminate | intros (y & E & _); discriminate]. }
  assert (F : forall s : EE.Scene,
     In s (EE.fetch archive in_date_range intersects
             (collection start_ end_ geometry_aoi)) <->
     In s (archive "COPERNICUS/S2_SR"%string) /\
     (exists x,
        EE.property s "CLOUDY_PIXEL_PERCENTAGE" = Some x /\ x < 100) /\
     in_date_range start_ end_ s = true /\
     intersects geometry_aoi s = true).
  { intros s. rewrite fetch_collection, !filter_In, K. tauto. }
  split; [exact F |]. split.
  - intros s E H. apply F in H. destruct H as (_ & (x & E' & L) & _).
    rewrite E in E'. injection E' as <-. lra.
  - intros w page. rewrite main_unfold.
    destruct (upload_files_proc json_loads Geometry_Polygon (upload_files w))
      as [e | g]; [discriminate |].
    cbv zeta. intros H. injection H as <-. now exists g.
Qed.

End Run.

Lemma ndvi_layer_is_masked_normalized_difference_witness :
  exists page v,
    Example.run (mkwidgets [] None None) = inr page /\
    tci_image page "B8"%string (0, 0)%Z = Some 0.3000 /\
    tci_image page "B4"%string (0, 0)%Z = Some 0.1000 /\
    ndvi_layer page (0, 0)%Z = Some v /\ v == 0.5.
Proof.
  destruct (ndvi_layer_is_masked_normalized_difference
              Example.loads Example.Polygon Example.archive
              Example.in_date_range Example.intersects Example.inside
              Example.median (mkwidgets [] None None) _ eq_refl)
    as (g & _ & _ & H).
  destruct (H (0, 0)%Z) as (H1 & _).
  destruct (H1 0.3000 0.1000) as (_ & H2 & _).
  - reflexivity.
  - reflexivity.
  - lra.
  - lra.
  - lra.
  - eexists. exists ((0.3000 - 0.1000) / (0.3000 + 0.1000)).
    split; [reflexivity |]. split; [reflexivity |]. split; [reflexivity |].
    split; [apply H2; vm_compute; discriminate | reflexivity].
Defined.

Lemma date_window_strings_witness :
  exists page,
    Example.run (mkwidgets [Example.triangle]
                           (Some (Py.datetime 2024 3 5))
                           (Some (Py.datetime 2024 1 7)))
      = inr page /\
    EE.filters (query page)
    = [ EE.Filter_lt "CLOUDY_PIXEL_PERCENTAGE" 100;
        EE.Filter_date "2024-03-05" "2024-01-07";
        EE.Filter_bounds
          (EE.MultiPolygon [EE.Polygon Example.triangle_coordinates]) ].
Proof.
  destruct (date_window_strings
              Example.loads Example.Polygon Example.archive
              Example.in_date_range Example.intersects Example.inside
              Example.median)
    as (_ & _ & _ & _ & _ & H & _).
  apply (H (mkwidgets [Example.triangle]
                      (Some (Py.datetime 2024 3 5))
                      (Some (Py.datetime 2024 1 7)))
           (EE.MultiPolygon [EE.Polygon Example.triangle_coordinates])).
  vm_compute. reflexivity.
Defined.

Lemma collection_filters_witness :
  In (Example.flat_scene 12 1000 3000)
     (EE.fetch Example.archive Example.in_date_range Example.intersects
        (collection "2023-02-10" "2023-02-20" default_point)) /\
  ~ In (Example.flat_scene 100 3000 1000)
       (EE.fetch Example.archive Example.in_date_range Example.intersects
          (collection "2023-02-10" "2023-02-20" default_point)).
Proof.
  destruct (collection_filters
              Example.loads Example.Polygon
              Example.archive Example.in_date_range Example.intersects
              Example.inside Example.median
              "2023-02-10" "2023-02-20" default_point)
    as (_ & H & N & _).
  split.
  - apply H. split; [left; reflexivity |].
    split; [exists 12; split; [reflexivity | lra] |].
    split; reflexivity.
  - apply N. reflexivity.
Defined.

(* ===================================================================== *)
(** * Further properties of the resolver                                  *)
(* ===================================================================== *)

Local Open Scope string_scope.

Section ResolverMore.

Variable json_loads : string -> Py.raises Py.value.
Variable Geometry_Polygon : Py.value -> Py.raises EE.Geometry.

Let geometry_of := file_geometry json_loads Geometry_Polygon.
Let loop := for_upload_file json_loads Geometry_Polygon.
Let valid := valid_upload json_loads Geometry_Polygon.
Let resolve := upload_files_proc json_loads Geometry_Polygon.

(** When the loop returns, every file was a valid upload. *)
Lemma for_upload_file_returns (upload_files : list UploadedFile) :
  forall geometry_aoi_list l,
    loop upload_files geometry_aoi_list = inr l ->
    exists gs,
      Forall2 valid upload_files gs /\
      l = (geometry_aoi_list ++ gs)%list.
Proof.
  induction upload_files as [| f fs IH]; intros acc l.
  - cbn. intros H. injection H as <-. exists []. split; [constructor |].
    now rewrite app_nil_r.
  - unfold loop. rewrite for_upload_file_step.
    destruct (file_geometry json_loads Geometry_Polygon f) as [e | g] eqn:E;
      [discriminate |].
    apply file_geometry_returns in E.
    intros H. apply IH in H. destruct H as (gs & Hgs & ->).
    exists (g :: gs). split; [now constructor |].
    now rewrite <- app_assoc.
Qed.

(** The loop over two lists in a row is the loop over the first and then,
    from its result, the loop over the second. *)
Lemma for_upload_file_app (a b : list UploadedFile) :
  forall geometry_aoi_list,
    loop (a ++ b)%list geometry_aoi_list =
    match loop a geometry_aoi_list with
    | inl e => inl e
    | inr l => loop b l
    end.
Proof.
  induction a as [| f fs IH]; intros acc; [reflexivity |].
  cbn [app]. unfold loop. rewrite !for_upload_file_step.
  destruct (file_geometry json_loads Geometry_Polygon f) as [e | g];
    [reflexivity | apply IH].
Qed.

(** X1.  The resolver returns only when every file is a valid upload:
    each file parsed, had coordinates at the path of line 42, and the
    polygon constructor built a geometry from them.  The result is then
    the default point for no file, and otherwise the multi-polygon of
    these geometries, one per file, in the order of the files. *)
Theorem resolver_returns_only_valid
    (upload_files : list UploadedFile) (g : EE.Geometry) :
  resolve upload_files = inr g ->
  exists gs,
    Forall2 valid upload_files gs /\
    List.length gs = List.length upload_files /\
    g = match gs with
        | [] => default_point
        | _ :: _ => EE.MultiPolygon gs
        end.
Proof.
  unfold resolve. rewrite upload_files_proc_unfold.
  destruct (for_upload_file json_loads Geometry_Polygon upload_files [])
    as [e | l] eqn:E; [discriminate |].
  apply for_upload_file_returns in E. destruct E as (gs & Hgs & ->).
  cbn [app]. intros R. exists gs. split; [exact Hgs |].
  split; [symmetry; exact (Forall2_length Hgs) |].
  destruct gs; injection R as <-; reflexivity.
Qed.

(** X2.  The resolver stops at the first file whose geometry cannot be
    built: after valid uploads, a file that raises [e] makes the resolver
    raise [e], whatever files come after it. *)
Theorem first_bad_upload_decides
    (before after : list UploadedFile) (upload_file : UploadedFile)
    (gs : list EE.Geometry) (e : Py.exn) :
  Forall2 valid before gs ->
  geometry_of upload_file = inl e ->
  resolve (before ++ upload_file :: after)%list = inl e.
Proof.
  intros Hb He. unfold resolve. rewrite upload_files_proc_unfold.
  now rewrite (for_upload_file_raises json_loads Geometry_Polygon
                 before after upload_file gs e Hb He []).
Qed.

(** X5.  Two batches of uploads in a row give the polygons of the first
    followed by those of the second; when the first batch raises, so does
    the whole with the same exception. *)
Theorem batches_concatenate (a b : list UploadedFile) :
  (forall la lb,
     resolve a = inr (EE.MultiPolygon la) ->
     resolve b = inr (EE.MultiPolygon lb) ->
     resolve (a ++ b)%list = inr (EE.MultiPolygon (la ++ lb))) /\
  (forall e, resolve a = inl e -> resolve (a ++ b)%list = inl e).
Proof.
  unfold resolve. rewrite !upload_files_proc_unfold.
  pose proof (for_upload_file_app a b []) as App. unfold loop in App.
  rewrite App. split.
  - intros la lb.
    destruct (for_upload_file json_loads Geometry_Polygon a [])
      as [e | [| g l]] eqn:Ea; try discriminate.
    intros Ha. injection Ha as <-.
    destruct (for_upload_file json_loads Geometry_Polygon b [])
      as [e | [| g' l']] eqn:Eb; try discriminate.
    intros Hb. injection Hb as <-.
    apply for_upload_file_returns in Eb. destruct Eb as (gs & Hgs & Eq).
    cbn [app] in Eq.
    rewrite (for_upload_file_valid json_loads Geometry_Polygon b gs Hgs
               (g :: l)), <- Eq.
    reflexivity.
  - intros e.
    destruct (for_upload_file json_loads Geometry_Polygon a [])
      as [e' | [| g l]]; try discriminate.
    intros H. now injection H as <-.
Qed.

End ResolverMore.

Lemma resolver_returns_only_valid_witness :
  exists gs,
    Forall2 (valid_upload Example.loads Example.Polygon)
            [Example.bare_ring; Example.triangle] gs /\
    List.length gs = 2%nat /\
    upload_files_proc Example.loads Example.Polygon
      [Example.bare_ring; Example.triangle]
    = inr (EE.MultiPolygon gs).
Proof.
  destruct (upload_files_proc Example.loads Example.Polygon
              [Example.bare_ring; Example.triangle]) as [e | g] eqn:E;
    [vm_compute in E; discriminate E |].
  destruct (resolver_returns_only_valid Example.loads Example.Polygon
              [Example.bare_ring; Example.triangle] g E)
    as (gs & H & L & G).
  exists gs. split; [exact H |]. split; [exact L |].
  rewrite G. destruct gs; [discriminate L | reflexivity].
Defined.

Lemma first_bad_upload_decides_witness :
  upload_files_proc Example.loads Example.Polygon
    [Example.triangle; Example.no_features; Example.truncated;
     Example.square]
  = inl Py.IndexError.
Proof.
  apply (first_bad_upload_decides Example.loads Example.Polygon
           [Example.triangle] [Example.truncated; Example.square]
           Example.no_features [EE.Polygon Example.triangle_coordinates]).
  - repeat constructor. apply triangle_is_valid.
  - vm_compute. reflexivity.
Defined.

Lemma batches_concatenate_witness :
  upload_files_proc Example.loads Example.Polygon
    ([Example.triangle] ++ [Example.square; Example.triangle])
  = inr (EE.MultiPolygon
           ([EE.Polygon Example.triangle_coordinates]
            ++ [EE.Polygon Example.square_coordinates;
                EE.Polygon Example.triangle_coordinates])) /\
  upload_files_proc Example.loads Example.Polygon
    ([Example.truncated] ++ [Example.square])
  = inl Py.JSONDecodeError.
Proof.
  split.
  - apply (proj1 (batches_concatenate Example.loads Example.Polygon
                    [Example.triangle]
                    [Example.square; Example.triangle]));
      vm_compute; reflexivity.
  - apply (proj2 (batches_concatenate Example.loads Example.Polygon
                    [Example.truncated] [Example.square])).
    vm_compute. reflexivity.
Defined.

(** Follow every case of a subscript chain. *)
Ltac chase :=
  repeat (cbn in *;
          match goal with
          | H : inl _ = inl _ |- _ => injection H as <-
          | H : inr _ = inl _ |- _ => discriminate H
          | H : inl _ = inr _ |- _ => discriminate H
          | H : inr _ = inr _ |- _ => injection H as <-
          | H : Some _ = Some _ |- _ => injection H as <-
          | H : context [Py.getitem ?v _] |- _ => is_var v; destruct v
          | |- context [Py.getitem ?v _] => is_var v; destruct v
          | H : context [list_ascii_of_string ?v] |- _ => is_var v; destruct v
          | H : context [match ?x with _ => _ end] |- _ => destruct x eqn:?
          | |- context [match ?x with _ => _ end] => destruct x eqn:?
          end).

(** X3.  The subscripts of line 42 raise nothing but [KeyError],
    [IndexError] and [TypeError]: a document that is not an object gives
    [TypeError], an object without ['features'] gives [KeyError], and
    [IndexError] is raised exactly when ['features'] is an empty list or an
    empty string. *)
Theorem subscript_chain_exceptions (geojson_data : Py.value) :
  (forall e,
     coordinates_of geojson_data = inl e ->
     e = Py.KeyError \/ e = Py.IndexError \/ e = Py.TypeError) /\
  ((forall d, geojson_data <> Py.VDict d) ->
   coordinates_of geojson_data = inl Py.TypeError) /\
  (forall d,
     geojson_data = Py.VDict d -> Py.dict_get d "features" = None ->
     coordinates_of geojson_data = inl Py.KeyError) /\
  (coordinates_of geojson_data = inl Py.IndexError <->
   exists d,
     geojson_data = Py.VDict d /\
     (Py.dict_get d "features" = Some (Py.VList []) \/
      Py.dict_get d "features" = Some (Py.VStr ""))).
Proof.
  unfold coordinates_of. repeat split.
  - intros e H. destruct geojson_data; chase; auto.
  - intros H. destruct geojson_data; try reflexivity. now destruct (H d).
  - intros d -> H. cbn. now rewrite H.
  - intros H. destruct geojson_data as [| | | | | | d]; chase;
      try discriminate.
    + exists d. split; [reflexivity |]. now right.
    + exists d. split; [reflexivity |]. now left.
  - intros (d & -> & [H | H]); cbn; now rewrite H.
Qed.

Lemma subscript_chain_exceptions_witness :
  upload_files_proc Example.loads Example.Polygon [Example.not_a_dict]
    = inl Py.TypeError /\
  exists d,
    Example.loads (read Example.no_features) = inr (Py.VDict d) /\
    coordinates_of (Py.VDict d) = inl Py.IndexError.
Proof.
  split.
  - assert (H : coordinates_of (Py.VList [Py.VInt 1; Py.VInt 2; Py.VInt 3])
                = inl Py.TypeError).
    { apply (subscript_chain_exceptions
               (Py.VList [Py.VInt 1; Py.VInt 2; Py.VInt 3])).
      intros d. discriminate. }
    rewrite upload_files_proc_unfold.
    unfold for_upload_file, file_geometry.
    change (Example.loads (read Example.not_a_dict))
      with (@inr Py.exn Py.value
              (Py.VList [Py.VInt 1; Py.VInt 2; Py.VInt 3])).
    cbn -[coordinates_of]. rewrite H. reflexivity.
  - eexists. split; [vm_compute; reflexivity |].
    apply subscript_chain_exceptions.
    eexists. split; [reflexivity |]. left. reflexivity.
Defined.

(** X4.  Of a document only the coordinates of the geometry of the first
    feature are read: two documents with the same first feature give the
    same result whatever their other features and members, and so do two
    first features with the same geometry and two geometries with the same
    coordinates, whatever their ['type']. *)
Theorem only_first_feature_is_read :
  (forall d d' feature rest rest',
     Py.dict_get d "features" = Some (Py.VList (feature :: rest)) ->
     Py.dict_get d' "features" = Some (Py.VList (feature :: rest')) ->
     coordinates_of (Py.VDict d) = coordinates_of (Py.VDict d')) /\
  (forall fd fd' geometry rest rest',
     Py.dict_get fd "geometry" = Some geometry ->
     Py.dict_get fd' "geometry" = Some geometry ->
     coordinates_of
       (Py.VDict [("features", Py.VList (Py.VDict fd :: rest))]) =
     coordinates_of
       (Py.VDict [("features", Py.VList (Py.VDict fd' :: rest'))])) /\
  (forall gd gd' c,
     Py.dict_get gd "coordinates" = Some c ->
     Py.dict_get gd' "coordinates" = Some c ->
     coordinates_of
       (Py.VDict [("features",
                   Py.VList [Py.VDict [("geometry", Py.VDict gd)]])]) =
     coordinates_of
       (Py.VDict [("features",
                   Py.VList [Py.VDict [("geometry", Py.VDict gd')]])])).
Proof.
  unfold coordinates_of. repeat split.
  - intros d d' f r r' H H'. cbn. now rewrite H, H'.
  - intros fd fd' g r r' H H'. cbn. now rewrite H, H'.
  - intros gd gd' c H H'. cbn. now rewrite H, H'.
Qed.

Lemma only_first_feature_is_read_witness :
  exists d d',
    Example.loads (read Example.two_features) = inr (Py.VDict d) /\
    Example.loads (read Example.triangle) = inr (Py.VDict d') /\
    coordinates_of (Py.VDict d) = coordinates_of (Py.VDict d') /\
    upload_files_proc Example.loads Example.Polygon [Example.two_features]
    = inr (EE.MultiPolygon [EE.Polygon Example.triangle_coordinates]).
Proof.
  eexists. eexists.
  split; [vm_compute; reflexivity |].
  split; [vm_compute; reflexivity |].
  split.
  - eapply (proj1 only_first_feature_is_read); vm_compute; reflexivity.
  - vm_compute. reflexivity.
Defined.

(* ===================================================================== *)
(** * Further properties of the band-math pipeline                        *)
(* ===================================================================== *)

Local Open Scope Q_scope.

(** The normalized difference of two bands that are not negative is 0 or
    more exactly when the first band is at least the second. *)
Lemma normalized_difference_sign (a b : Q) :
  0 <= a -> 0 <= b -> (0 <= (a - b) / (a + b) <-> b <= a).
Proof.
  intros La Lb. destruct (Qlt_le_dec 0 (a + b)) as [L | L].
  - split; intros H.
    + assert (E : (a + b) * ((a - b) / (a + b)) == a - b)
        by (apply Qmult_div_r; lra).
      assert (P : 0 <= (a + b) * ((a - b) / (a + b)))
        by (apply Qmult_le_0_compat; lra).
      lra.
    + apply Qle_shift_div_l; [exact L | lra].
  - assert (Z : a - b == 0) by lra.
    split; intros _; [lra |].
    unfold Qdiv. rewrite Z, Qmult_0_l. lra.
Qed.

Lemma getNDVI_valid (image : EE.Image) (p : EE.Pixel) (v : Q) :
  getNDVI image p = Some v ->
  exists b8 b4,
    image "B8"%string p = Some b8 /\ image "B4"%string p = Some b4 /\
    0 <= b8 /\ 0 <= b4 /\ v = (b8 - b4) / (b8 + b4).
Proof.
  unfold getNDVI, EE.normalizedDifference.
  destruct (image "B8"%string p) as [a |]; [| discriminate].
  destruct (image "B4"%string p) as [b |]; [| discriminate].
  destruct (EE.Qlt_bool a 0) eqn:Ea; [discriminate |].
  destruct (EE.Qlt_bool b 0) eqn:Eb; [discriminate |].
  cbn. intros H. injection H as <-. exists a, b.
  repeat split.
  - destruct (Qlt_le_dec a 0) as [L | L]; [| exact L].
    apply Qlt_bool_iff in L. congruence.
  - destruct (Qlt_le_dec b 0) as [L | L]; [| exact L].
    apply Qlt_bool_iff in L. congruence.
Qed.

(** The class of a valid value of 0 or more, as a number from 1 to 7. *)
Lemma class_of_valid (ndvi : EE.Band) (p : EE.Pixel) (v : Q) :
  ndvi p = Some v -> 0 <= v ->
  exists k,
    (1 <= k <= 7)%nat /\ ndvi_classified ndvi p = Some (class_number k).
Proof.
  intros H L. rewrite (ndvi_classified_valid ndvi p v H).
  split_at_breakpoints v; try lra; decide_comparisons; cbn [andb];
    [ exists 1%nat | exists 2%nat | exists 3%nat | exists 4%nat
    | exists 5%nat | exists 6%nat | exists 7%nat ];
    (split; [lia | reflexivity]).
Qed.

(** X8.  The classes are ordered as the NDVI values are: of two valid
    pixels with values of 0 or more, the one with the larger value has the
    larger or the same class. *)
Theorem classes_are_monotone (ndvi : EE.Band) (p p' : EE.Pixel) (v v' : Q) :
  ndvi p = Some v -> ndvi p' = Some v' ->
  0 <= v -> v <= v' ->
  exists c c',
    ndvi_classified ndvi p = Some c /\
    ndvi_classified ndvi p' = Some c' /\
    c <= c'.
Proof.
  intros H H' L LE.
  rewrite (ndvi_classified_valid ndvi p v H),
          (ndvi_classified_valid ndvi p' v' H').
  eexists. eexists. split; [reflexivity |]. split; [reflexivity |].
  split_at_breakpoints v; try lra;
    split_at_breakpoints v'; try lra;
    decide_comparisons; cbn [andb]; lra.
Qed.

Lemma classes_are_monotone_witness :
  exists c c',
    ndvi_classified Example.ramp (1, 0)%Z = Some c /\
    ndvi_classified Example.ramp (8, 0)%Z = Some c' /\
    c <= c'.
Proof.
  apply (classes_are_monotone Example.ramp (1, 0)%Z (8, 0)%Z 0.1 0.8);
    try reflexivity; vm_compute; discriminate.
Defined.

(** X14.  A valid pixel with a negative value would pass through the
    seven [where] calls unchanged: no test holds for it.  Only the mask
    of line 144 keeps such values out of the classified layer. *)
Theorem negative_value_is_not_classified
    (ndvi : EE.Band) (p : EE.Pixel) (v : Q) :
  ndvi p = Some v -> v < 0 ->
  ndvi_classified ndvi p = Some v /\
  List.filter (fun r => holds_at p (fst r)) (conditions ndvi) = [] /\
  ndvi_classified (mask_water ndvi) p = None.
Proof.
  intros H L. split; [| split].
  - rewrite (ndvi_classified_valid ndvi p v H).
    decide_comparisons. reflexivity.
  - unfold conditions. cbn [List.filter fst].
    rewrite !(holds_at_between ndvi p v _ _ H), (holds_at_gte ndvi p v _ H).
    decide_comparisons. reflexivity.
  - apply ndvi_classified_masked. now apply (mask_water_negative ndvi p v).
Qed.

Lemma negative_value_is_not_classified_witness :
  ndvi_classified (EE.constant (-0.2)) (0, 0)%Z = Some (-0.2) /\
  ndvi_classified (mask_water (EE.constant (-0.2))) (0, 0)%Z = None.
Proof.
  destruct (negative_value_is_not_classified
              (EE.constant (-0.2)) (0, 0)%Z (-0.2) eq_refl)
    as (H1 & _ & H3).
  - vm_compute. reflexivity.
  - split; [exact H1 | exact H3].
Defined.

Section RunMore.

Variable json_loads : string -> Py.raises Py.value.
Variable Geometry_Polygon : Py.value -> Py.raises EE.Geometry.
Variable archive : string -> list EE.Scene.
Variable in_date_range : string -> string -> EE.Scene -> bool.
Variable intersects : EE.Geometry -> EE.Scene -> bool.
Variable inside : EE.Geometry -> EE.Pixel -> bool.
Variable median : list EE.Image -> EE.Image.

Let run : Widgets -> Py.raises Page :=
  main json_loads Geometry_Polygon archive in_date_range intersects inside
       median.

(** The layers of a page, in terms of its composite. *)
Lemma page_layers (w : Widgets) (page : Page) :
  run w = inr page ->
  ndvi_layer page = mask_water (getNDVI (tci_image page)) /\
  ndvi_classified_layer page = ndvi_classified (ndvi_layer page).
Proof.
  unfold run.
  rewrite (main_unfold json_loads Geometry_Polygon archive in_date_range
             intersects inside median w).
  destruct (upload_files_proc json_loads Geometry_Polygon (upload_files w));
    [discriminate |].
  cbv zeta. intros H. injection H as <-. now split.
Qed.

(** X6.  Every valid pixel of the NDVI layer has a value from 0 to 1, the
    range of [ndvi_params]: no value is clamped when the layer is drawn. *)
Theorem ndvi_layer_within_range
    (w : Widgets) (page : Page) (p : EE.Pixel) (v : Q) :
  run w = inr page ->
  ndvi_layer page p = Some v ->
  Vis.min ndvi_params <= v <= Vis.max ndvi_params /\
  Vis.clamp ((v - Vis.min ndvi_params)
             / (Vis.max ndvi_params - Vis.min ndvi_params)) == v.
Proof.
  intros R H. destruct (page_layers w page R) as [E _].
  rewrite E in H. apply mask_water_spec in H. destruct H as [H L].
  apply getNDVI_le_1 in H.
  assert (Q1 : (v - Vis.min ndvi_params)
               / (Vis.max ndvi_params - Vis.min ndvi_params) == v).
  { cbn. unfold Qdiv. change (/ (1 - 0)) with 1. lra. }
  split; [cbn; lra |].
  unfold Vis.clamp.
  destruct (Qle_bool _ 0) eqn:E0.
  - apply Qle_bool_iff in E0. lra.
  - destruct (Qle_bool 1 _) eqn:E1; [| exact Q1].
    apply Qle_bool_iff in E1. lra.
Qed.

(** X7.  The NDVI layer and the classified layer are valid at the same
    pixels, and these are the pixels where bands B8 and B4 of the
    composite are valid and not negative, with B8 at least B4. *)
Theorem layers_share_their_mask (w : Widgets) (page : Page) (p : EE.Pixel) :
  run w = inr page ->
  (ndvi_classified_layer page p = None <-> ndvi_layer page p = None) /\
  (ndvi_layer page p <> None <->
   exists b8 b4,
     tci_image page "B8"%string p = Some b8 /\
     tci_image page "B4"%string p = Some b4 /\
     0 <= b4 /\ b4 <= b8).
Proof.
  intros R. destruct (page_layers w page R) as [E1 E2]. split.
  - rewrite E2. split.
    + intros H. destruct (ndvi_layer page p) as [v |] eqn:V; [| reflexivity].
      destruct (Qlt_le_dec v 0) as [L | L].
      * rewrite (ndvi_classified_valid _ p v V) in H. discriminate.
      * rewrite (ndvi_classified_valid _ p v V) in H. discriminate.
    + apply ndvi_classified_masked.
  - rewrite E1. split.
    + intros H. destruct (mask_water _ p) as [v |] eqn:V; [| contradiction].
      apply mask_water_spec in V. destruct V as [V L].
      apply getNDVI_valid in V.
      destruct V as (b8 & b4 & H8 & H4 & L8 & L4 & ->).
      exists b8, b4. repeat split; try assumption.
      now apply normalized_difference_sign.
    + intros (b8 & b4 & H8 & H4 & L4 & L).
      assert (L8 : 0 <= b8) by lra.
      assert (V : mask_water (getNDVI (tci_image page)) p
                  = Some ((b8 - b4) / (b8 + b4))).
      { apply mask_water_spec. split.
        - now apply getNDVI_spec.
        - now apply normalized_difference_sign. }
      rewrite V. discriminate.
Qed.

End RunMore.

(** X9.  Every valid pixel of the classified layer holds a whole number
    from 1 to 7, within the [min] and [max] of [ndvi_classified_params],
    and the palette of these parameters has one colour for each whole
    number of that range, seven colours that differ from one another. *)
Theorem classes_within_palette (raw : EE.Band) (p : EE.Pixel) (v : Q) :
  mask_water raw p = Some v ->
  exists k : nat,
    ndvi_classified (mask_water raw) p = Some (class_number k) /\
    Vis.min ndvi_classified_params <= class_number k
      <= Vis.max ndvi_classified_params /\
    inject_Z (Z.of_nat (List.length (Vis.palette ndvi_classified_params)))
      == Vis.max ndvi_classified_params - Vis.min ndvi_classified_params + 1 /\
    NoDup (Vis.palette ndvi_classified_params).
Proof.
  intros H.
  assert (L : 0 <= v) by (apply (mask_water_spec raw p v), H).
  destruct (class_of_valid (mask_water raw) p v H L) as (k & B & C).
  exists k. split; [exact C |]. split; [| split].
  - unfold class_number. cbn [Vis.min Vis.max ndvi_classified_params].
    split.
    + change 1 with (inject_Z 1). rewrite <- Zle_Qle. lia.
    + change 7 with (inject_Z 7). rewrite <- Zle_Qle. lia.
  - reflexivity.
  - cbn. repeat constructor; cbn; intuition discriminate.
Qed.

Lemma classes_within_palette_witness :
  exists k : nat,
    ndvi_classified (mask_water Example.ramp) (3, 0)%Z
      = Some (class_number k) /\
    1 <= class_number k <= 7.
Proof.
  destruct (classes_within_palette Example.ramp (3, 0)%Z 0.3 eq_refl)
    as (k & C & B & _).
  exists k. split; [exact C | exact B].
Defined.

Lemma ndvi_layer_within_range_witness :
  exists page v,
    Example.run (mkwidgets [] None None) = inr page /\
    ndvi_layer page (0, 0)%Z = Some v /\ 0 <= v <= 1.
Proof.
  eexists. eexists. split; [reflexivity |]. split; [reflexivity |].
  apply (ndvi_layer_within_range
           Example.loads Example.Polygon Example.archive
           Example.in_date_range Example.intersects Example.inside
           Example.median (mkwidgets [] None None) _ (0, 0)%Z _
           eq_refl eq_refl).
Defined.

Lemma layers_share_their_mask_witness :
  exists page,
    Example.run (mkwidgets [] None None) = inr page /\
    ndvi_layer page (5, 5)%Z <> None.
Proof.
  eexists. split; [reflexivity |].
  apply (layers_share_their_mask
           Example.loads Example.Polygon Example.archive
           Example.in_date_range Example.intersects Example.inside
           Example.median (mkwidgets [] None None) _ (5, 5)%Z eq_refl).
  exists 0.3000, 0.1000.
  split; [reflexivity |]. split; [reflexivity |]. split; lra.
Defined.

(* ===================================================================== *)
(** * Further properties of the date window                               *)
(* ===================================================================== *)

Local Open Scope string_scope.

Lemma append_same_length (a b s t : string) :
  String.length a = String.length b ->
  a ++ s = b ++ t -> a = b /\ s = t.
Proof.
  revert b. induction a as [| c a IH]; intros [| c' b] L H;
    try discriminate.
  - now split.
  - cbn in L, H. injection L as L. injection H as -> H.
    destruct (IH b L H) as [-> ->]. now split.
Qed.

Lemma zfill_injective (width : nat) (a b : Z) :
  (0 <= a < 10 ^ Z.of_nat width)%Z -> (0 <= b < 10 ^ Z.of_nat width)%Z ->
  Py.zfill width a = Py.zfill width b -> a = b.
Proof.
  intros Ba Bb E. apply (f_equal decimal_value) in E.
  rewrite !zfill_value in E. now rewrite !Z.mod_small in E.
Qed.

(** X12.  The date string determines the date: two dates with a year from
    0 to 9999 and month and day below 100 that are written the same are
    the same date. *)
Theorem date_strings_determine_dates (d d' : Py.date) :
  (0 <= Py.year d < 10000)%Z -> (0 <= Py.month d < 100)%Z ->
  (0 <= Py.day d < 100)%Z ->
  (0 <= Py.year d' < 10000)%Z -> (0 <= Py.month d' < 100)%Z ->
  (0 <= Py.day d' < 100)%Z ->
  start_date (Some d) = start_date (Some d') ->
  d = d'.
Proof.
  intros By Bm Bd By' Bm' Bd'. unfold start_date, date_input.
  rewrite !strftime_iso. intros H.
  apply append_same_length in H; [| now rewrite !zfill_length].
  destruct H as [Hy H].
  apply append_same_length in H; [| reflexivity]. destruct H as [_ H].
  apply append_same_length in H; [| now rewrite !zfill_length].
  destruct H as [Hm H].
  apply append_same_length in H; [| reflexivity]. destruct H as [_ H].
  apply zfill_injective in Hy, Hm, H; try (cbn; lia).
  destruct d, d'. cbn in *. congruence.
Qed.

Lemma date_strings_determine_dates_witness :
  start_date (Some (Py.datetime 2023 2 10))
  <> start_date (Some (Py.datetime 2023 2 20)).
Proof.
  intros H.
  apply (date_strings_determine_dates
           (Py.datetime 2023 2 10) (Py.datetime 2023 2 20)) in H;
    cbn; try lia.
  discriminate H.
Defined.

